(** * Synthetic RevOps source generator: a shallow embedding

    Embedding of [src/ingestion/generate_revops_sources.py].

    Conventions of the model:
    - Python [int] is [Z]; a Python/NumPy [float] is an exact rational [Q]
      (binary64 rounding error is not modelled: every float operation is
      read as the exact operation on the value);
    - a calendar day is the number of days since 1970-01-01, a parsed
      timestamp the number of nanoseconds since that instant, as pandas
      stores it; [pd.to_datetime] is a parameter that maps the whole
      timestamp column to the column of parsed values;
    - the global NumPy generator is an explicit state: the stream of the
      unit-interval samples still to come;
    - a dict is a [gmap] (or an association list where the order of the
      keys is used), the filesystem is a [gmap] from paths to files. *)

From Stdlib Require Import ZArith QArith Qround Lia Lqa String List.
From stdpp Require Import gmap strings list fin_maps.

Local Open Scope Z_scope.

(** ** Number conversions of Python and NumPy *)

Module Num.

(** [int(x)] on a float: truncation toward zero. *)
Definition py_int (x : Q) : Z := Z.quot (Qnum x) (Z.pos (Qden x)).

(** [np.ceil(x)]: still a float. *)
Definition np_ceil (x : Q) : Q := inject_Z (Qceiling x).

(** [round(x)] with one argument: nearest integer, ties to even. *)
Definition py_round (x : Q) : Z :=
  let f := Qfloor x in
  match ((x - inject_Z f) ?= (1 # 2))%Q with
  | Lt => f
  | Gt => f + 1
  | Eq => if Z.even f then f else f + 1
  end.

(** [round(x, 2)]: nearest multiple of 0.01, ties to even. *)
Definition py_round2 (x : Q) : Q := py_round (x * 100) # 100.

(** [max(a, b)] on floats: Python returns [a] unless [b > a]. *)
Definition py_maxQ (a b : Q) : Q := if Qlt_le_dec a b then b else a.

End Num.

Import Num.

(** ** Module constants *)

Definition RAW_DIR : string := "warehouse/raw_data".
Definition OUT_SPEND : string := (RAW_DIR ++ "/marketing_spend.csv")%string.
Definition OUT_FUNNEL : string := (RAW_DIR ++ "/funnel.csv")%string.
Definition ORDERS_FILE : string :=
  (RAW_DIR ++ "/olist_orders_dataset.csv")%string.

Definition CHANNELS : list string :=
  ["Paid Search"; "Paid Social"; "Email"; "Affiliate"; "Organic"]%string.

(** The dict literal [channel_weights]; the order of its keys is used. *)
Definition channel_weights : list (string * Q) :=
  [("Paid Search", 28 # 100); ("Paid Social", 22 # 100); ("Email", 15 # 100);
   ("Affiliate", 10 # 100); ("Organic", 25 # 100)]%string.

(** Lookup in a dict kept as an association list. *)
Fixpoint dict_get {V : Type} (d : list (string * V)) (k : string) : option V :=
  match d with
  | [] => None
  | (k', v) :: d' => if String.eqb k' k then Some v else dict_get d' k
  end.

(** [channel_weights[ch]]; every key asked for comes from the dict itself,
    so the [KeyError] branch is never taken. *)
Definition weight_of (ch : string) : Q :=
  default 0%Q (dict_get channel_weights ch).

(** ** Channel purchase allocation (lines 63-73) *)

Section Allocation.

Variable total_purchases : Z.

(** State of the loop: the dict [allocations] and [remaining]. *)
Definition alloc_state : Type := gmap string Z * Z.

(** One iteration of [for i, ch in enumerate(channels)]. *)
Definition alloc_step (len : nat) (st : alloc_state) (ich : nat * string)
  : alloc_state :=
  let '(allocations, remaining) := st in
  let '(i, ch) := ich in
  if (i <? len - 1)%nat then
    let val := py_round (inject_Z total_purchases * weight_of ch) in
    (<[ch := val]> allocations, remaining - val)
  else
    (<[ch := Z.max 0 remaining]> allocations, remaining).

Definition alloc_loop : alloc_state :=
  let channels := channel_weights.*1 in
  foldl (alloc_step (length channels)) (∅, total_purchases)
        (imap pair channels).

Definition allocate : gmap string Z := alloc_loop.1.

End Allocation.

(** [allocations.get(ch, 0)] after the allocation loop. *)
Definition allocated (t : Z) (ch : string) : Z := default 0 (allocate t !! ch).

(** The allocation of one of the first four channels. *)
Definition share (t : Z) (w : Q) : Z := py_round (inject_Z t * w).

(** ** The random generator as explicit state *)

(** The samples from [0, 1) the generator will hand out, in order. *)
Definition rng : Type := nat -> Q.

Definition Rand (A : Type) : Type := rng -> A * rng.

Definition ret {A : Type} (a : A) : Rand A := fun s => (a, s).

Definition bind {A B : Type} (c : Rand A) (k : A -> Rand B) : Rand B :=
  fun s => let '(a, s') := c s in k a s'.

#[global] Instance rand_ret : MRet Rand := @ret.
#[global] Instance rand_bind : MBind Rand := fun A B k c => bind c k.

(** [random_sample()]: hand out the next sample. *)
Definition random_sample : Rand Q :=
  fun s => (s 0%nat, fun n => s (S n)).

(** [np.random.uniform(low, high)] is [low + (high - low) * random_sample()]. *)
Definition uniform (low high : Q) : Rand Q :=
  u ← random_sample; ret (low + (high - low) * u)%Q.

(** A [for] loop that threads an accumulator and the generator. *)
Fixpoint for_each {A S : Type} (body : S -> A -> Rand S) (xs : list A) (acc : S)
  : Rand S :=
  match xs with
  | [] => ret acc
  | x :: xs' => acc' ← body acc x; for_each body xs' acc'
  end.

(** ** Output rows *)

Record funnel_row : Type := FunnelRow {
  funnel_date : Z;
  funnel_channel : string;
  sessions : Z;
  leads : Z;
  purchases : Z
}.

Record spend_row : Type := SpendRow {
  spend_date : Z;
  spend_channel : string;
  spend : Q
}.

(** The two lists [funnel_rows] and [spend_rows] the loops append to. *)
Definition out_rows : Type := list funnel_row * list spend_row.

(** ** Per-day, per-channel synthesis (lines 56-123) *)

(** [pd.Timestamp(d).weekday()]: Monday is 0; 1970-01-01 was a Thursday. *)
Definition weekday (d : Z) : Z := (d + 3) mod 7.

Definition weekend_factor_of (d : Z) : Q :=
  if 5 <=? weekday d then 0.85%Q else 1.0%Q.

Definition is_paid (ch : string) : bool :=
  bool_decide (ch ∈ ["Paid Search"; "Paid Social"; "Affiliate"]%string).

(** Lines 107-113: the spend before dampening. *)
Definition raw_spend (ch : string) (sessions : Z) : Rand Q :=
  if is_paid ch then
    cpc ← uniform 0.5 2.5;
    f ← uniform 0.6 1.2;
    ret (inject_Z sessions * cpc * f)%Q
  else if String.eqb ch "Email" then
    uniform 20 120
  else
    ret 0%Q.

(** Lines 76-123 without the two [append] calls: the two dicts one pass of
    [for ch in CHANNELS] builds, drawing in the order the source draws. *)
Definition channel_rows (d : Z) (weekend_factor : Q)
    (allocations : gmap string Z) (ch : string)
  : Rand (funnel_row * spend_row) :=
  let purchases := default 0 (allocations !! ch) in
  lead_rate ← uniform 0.02 0.08;
  close_rate ← uniform 0.05 0.18;
  noise ← uniform 0.95 1.10;
  let leads :=
    py_int (np_ceil ((inject_Z purchases / py_maxQ close_rate 0.01) * noise)%Q) in
  noise' ← uniform 0.95 1.15;
  let sessions :=
    py_int (np_ceil ((inject_Z leads / py_maxQ lead_rate 0.01) * noise')%Q) in
  let sessions := py_int (inject_Z sessions * weekend_factor)%Q in
  let leads := py_int (inject_Z leads * weekend_factor)%Q in
  let funnel :=
    {| funnel_date := d; funnel_channel := ch;
       sessions := Z.max sessions 0;
       leads := Z.max leads 0;
       purchases := Z.max purchases 0 |} in
  spend ← raw_spend ch sessions;
  let spend := (spend * weekend_factor)%Q in
  ret (funnel,
       {| spend_date := d; spend_channel := ch;
          spend := py_round2 (py_maxQ spend 0) |}).

(** Body of [for ch in CHANNELS]: append the two dicts to the two lists. *)
Definition channel_body (d : Z) (weekend_factor : Q)
    (allocations : gmap string Z) (acc : out_rows) (ch : string)
  : Rand out_rows :=
  r ← channel_rows d weekend_factor allocations ch;
  ret (acc.1 ++ [r.1], acc.2 ++ [r.2]).

(** Body of [for _, row in purchases_daily.iterrows()] (lines 57-123). *)
Definition day_body (acc : out_rows) (row : Z * Z) : Rand out_rows :=
  let '(d, total_purchases) := row in
  let weekend_factor := weekend_factor_of d in
  let allocations := allocate total_purchases in
  for_each (channel_body d weekend_factor allocations) CHANNELS acc.

(** Lines 53-123: both loops, from empty lists. *)
Definition synthesize (purchases_daily : list (Z * Z)) : Rand out_rows :=
  for_each day_body purchases_daily ([], []).

(** ** Tables, files and exceptions *)

(** A row of the orders table: the two cells the program reads, as CSV text;
    [None] is an empty cell (NaN). *)
Record order_row : Type := OrderRow {
  order_id : option string;
  order_purchase_timestamp : option string
}.

(** The orders DataFrame: its column names and its rows. *)
Record table : Type := Table {
  columns : list string;
  rows : list order_row
}.

Inductive file : Type :=
  | OrdersCsv (t : table)
  | FunnelCsv (rs : list funnel_row)
  | SpendCsv (rs : list spend_row).

(** The filesystem: the files that exist, by path. *)
Definition filesystem : Type := gmap string file.

(** [pd.read_csv]: a file written by this program has none of the columns
    of the orders table. *)
Definition read_csv (f : file) : table :=
  match f with
  | OrdersCsv t => t
  | FunnelCsv rs =>
      {| columns := ["funnel_date"; "channel"; "sessions"; "leads"; "purchases"]%string;
         rows := (fun _ => OrderRow None None) <$> rs |}
  | SpendCsv rs =>
      {| columns := ["spend_date"; "channel"; "spend"]%string;
         rows := (fun _ => OrderRow None None) <$> rs |}
  end.

(** Exceptions: the two the program raises itself, with their messages, and
    those raised inside pandas (named by the call that raises). *)
Inductive exception : Type :=
  | FileNotFoundError (msg : string)
  | ValueError (msg : string)
  | PandasError (call : string).

Inductive result (A : Type) : Type :=
  | Ok (a : A)
  | Raise (e : exception).
Arguments Ok {A} a.
Arguments Raise {A} e.

(** What the closing [print] calls report. *)
Record summary : Type := Summary {
  funnel_len : nat;
  spend_len : nat;
  min_date : Z;
  max_date : Z
}.

(** ** Loading and daily aggregation (lines 15-43) *)

Definition ns_per_day : Z := 86400 * 1000000000.

(** [.dt.date] and [.dt.floor("D")]: the calendar day of a timestamp. *)
Definition day_of (ts : Z) : Z := ts / ns_per_day.

(** [s.min()] and [s.max()] of a column of days; [None] on an empty one. *)
Definition series_min (l : list Z) : option Z :=
  match l with
  | [] => None
  | x :: l' => Some (foldl Z.min x l')
  end.

Definition series_max (l : list Z) : option Z :=
  match l with
  | [] => None
  | x :: l' => Some (foldl Z.max x l')
  end.

(** [pd.date_range(a, b, freq="D")]: every day from [a] to [b] inclusive. *)
Definition date_range (a b : Z) : list Z := seqZ a (b - a + 1).

Section Main.

(** [pd.to_datetime(column, errors="coerce")] (lines 27-29): the whole
    timestamp column goes in, as [read_csv] typed it, and a column of
    instants in nanoseconds comes out, [None] (NaT) where a value does not
    parse. How one cell parses may depend on the other cells of the
    column. *)
Variable to_datetime : list (option string) -> list (option Z).

(** The table after lines 27-29, the timestamp column replaced by the
    parsed one: every row as its [order_id] and its parsed timestamp. *)
Definition coerce_timestamps (rs : list order_row)
  : list (option string * option Z) :=
  zip_with (fun r p => (order_id r, p)) rs
           (to_datetime (order_purchase_timestamp <$> rs)).

(** A row survives [dropna] when its timestamp is not NaT. *)
Definition keep_row (o : option string * option Z)
  : option (option string * Z) :=
  ts ← o.2; Some (o.1, ts).

(** Line 30: [dropna(subset=["order_purchase_timestamp"])]. *)
Definition dropna (rs : list order_row) : list (option string * Z) :=
  omap keep_row (coerce_timestamps rs).

(** [groupby("order_date")["order_id"].nunique()] at one day: the number
    of distinct non-empty identifiers among the orders of the day. *)
Definition nunique_on (orders : list (option string * Z)) (d : Z) : Z :=
  Z.of_nat (length (remove_dups
    (omap fst (filter (fun o => day_of o.2 = d) orders)))).

(** Lines 32-43: [(date, total_purchases)] for every day of the range. *)
Definition purchases_daily_of (orders : list (option string * Z))
    (all_dates : list Z) : list (Z * Z) :=
  (fun d => (d, nunique_on orders d)) <$> all_dates.

Definition missing_file_msg : string :=
  ("Missing " ++ ORDERS_FILE ++
   ". Put Olist CSVs in warehouse/raw_data/ first.")%string.

Definition missing_column_msg : string :=
  "Expected column 'order_purchase_timestamp' not found in olist_orders_dataset.csv".

(** [main()]: the result, the filesystem and the generator afterwards. *)
Definition main (fs : filesystem) (g : rng)
  : result summary * filesystem * rng :=
  match fs !! ORDERS_FILE with
  | None => (Raise (FileNotFoundError missing_file_msg), fs, g)
  | Some f =>
    let orders := read_csv f in
    if negb (bool_decide ("order_purchase_timestamp"%string ∈ columns orders))
    then (Raise (ValueError missing_column_msg), fs, g)
    else
      let kept := dropna (rows orders) in
      let days := (fun o => day_of o.2) <$> kept in
      match series_min days, series_max days with
      | Some min_date, Some max_date =>
        let all_dates := date_range min_date max_date in
        if negb (bool_decide ("order_id"%string ∈ columns orders))
        then (Raise (PandasError "groupby"), fs, g)
        else
          let purchases_daily := purchases_daily_of kept all_dates in
          let '((funnel_rows, spend_rows), g') :=
            synthesize purchases_daily g in
          let fs := <[OUT_FUNNEL := FunnelCsv funnel_rows]> fs in
          let fs := <[OUT_SPEND := SpendCsv spend_rows]> fs in
          (Ok {| funnel_len := length funnel_rows;
                 spend_len := length spend_rows;
                 min_date := min_date; max_date := max_date |}, fs, g')
      | _, _ => (Raise (PandasError "date_range"), fs, g)
      end
  end.

End Main.

(** ** A small concrete run, for the examples *)

Module Example.

(** A stand-in for [pd.to_datetime]: a cell of decimal digits is read as
    midnight of that many days after 1970-01-01; anything else is NaT. *)
Fixpoint digits (s : string) (acc : Z) : option Z :=
  match s with
  | EmptyString => Some acc
  | String c s' =>
      let n := Z.of_N (Ascii.N_of_ascii c) - 48 in
      if (0 <=? n) && (n <=? 9) then digits s' (10 * acc + n) else None
  end.

Definition cell_to_datetime (s : string) : option Z :=
  match s with
  | EmptyString => None
  | _ => (fun d => d * ns_per_day) <$> digits s 0
  end.

(** It reads every cell on its own. *)
Definition to_datetime (col : list (option string)) : list (option Z) :=
  (fun c => c ≫= cell_to_datetime) <$> col.

(** Four orders: two on day 2 (a Saturday) sharing one id, one on day 4,
    and one whose timestamp does not parse. *)
Definition orders : table :=
  {| columns := ["order_id"; "order_purchase_timestamp"]%string;
     rows := [ OrderRow (Some "a") (Some "2"); OrderRow (Some "b") (Some "n/a");
               OrderRow (Some "c") (Some "4"); OrderRow (Some "a") (Some "2") ]%string |}.

Definition fs : filesystem := {[ ORDERS_FILE := OrdersCsv orders ]}.

(** A generator that always hands out one half. *)
Definition halves : rng := fun _ => (1 # 2)%Q.

(** A second stand-in, after what pandas does with two kinds of column.
    A column whose cells are all decimal digits is typed int64 by
    [read_csv], and [to_datetime] takes an integer as nanoseconds since
    1970-01-01. Any other column is text: an eight-digit cell is read as
    the date YYYYMMDD, anything else is NaT. *)
Definition all_digits (c : option string) : bool :=
  match c with
  | Some (String a s) => bool_decide (is_Some (digits (String a s) 0))
  | _ => false
  end.

(** Days from 1970-01-01 to a date of the proleptic Gregorian calendar. *)
Definition days_from_civil (y m d : Z) : Z :=
  let y' := if m <=? 2 then y - 1 else y in
  let era := y' / 400 in
  let yoe := y' - era * 400 in
  let doy := (153 * (if 2 <? m then m - 3 else m + 9) + 2) / 5 + d - 1 in
  let doe := yoe * 365 + yoe / 4 - yoe / 100 + doy in
  era * 146097 + doe - 719468.

Definition yyyymmdd (s : string) : option Z :=
  if (String.length s =? 8)%nat then
    n ← digits s 0;
    let y := n / 10000 in
    let m := (n / 100) mod 100 in
    let d := n mod 100 in
    if (1 <=? m) && (m <=? 12) && (1 <=? d) && (d <=? 31)
    then Some (days_from_civil y m d * ns_per_day) else None
  else None.

Definition pandas_like (col : list (option string)) : list (option Z) :=
  if forallb all_digits col
  then (fun c => c ≫= fun s => digits s 0) <$> col
  else (fun c => c ≫= yyyymmdd) <$> col.

End Example.

(** ** Draws within range *)

(** Every sample the generator hands out lies in [0, 1), as
    [random_sample] promises. *)
Definition unit_draws (g : rng) : Prop :=
  forall n : nat, (0 <= g n)%Q /\ (g n < 1)%Q.

(** The generator after [k] samples have been taken. *)
Definition after (k : nat) (g : rng) : rng := fun n => g (k + n)%nat.

(** ** Values inside one pass, named *)

(** The value of [leads] after lines 81-86, before line 95 overwrites it:
    a function of the allocated purchases and of the generator as it is
    when the pass starts. *)
Definition leads_undampened (purchases : Z) (g : rng) : Z :=
  let close_rate := (0.05 + (0.18 - 0.05) * g 1%nat)%Q in
  let noise := (0.95 + (1.10 - 0.95) * g 2%nat)%Q in
  Qceiling (inject_Z purchases / py_maxQ close_rate 0.01 * noise).

(** The value of [sessions] after lines 87-92, before line 94 overwrites
    it. *)
Definition sessions_undampened (purchases : Z) (g : rng) : Z :=
  let lead_rate := (0.02 + (0.08 - 0.02) * g 0%nat)%Q in
  let noise' := (0.95 + (1.15 - 0.95) * g 3%nat)%Q in
  Qceiling (inject_Z (leads_undampened purchases g)
            / py_maxQ lead_rate 0.01 * noise').

(** The two draws of a paid channel (lines 108-109): the fifth and the
    sixth sample of the pass. *)
Definition cpc_of (g : rng) : Q := (0.5 + (2.5 - 0.5) * g 4%nat)%Q.
Definition spend_factor_of (g : rng) : Q := (0.6 + (1.2 - 0.6) * g 5%nat)%Q.

(** Following the specification's words (section 4.4, paid channels): the
    session count before weekend dampening, times [cpc], times the drawn
    factor, the weekend factor applied once afterwards, clamped at 0.0 and
    rounded to two places. *)
Definition spec_paid_spend (sessions_before : Z) (cpc f weekend_factor : Q) : Q :=
  py_round2 (py_maxQ (inject_Z sessions_before * cpc * f * weekend_factor) 0).

(** ** Keys of the output rows *)

Definition funnel_key (r : funnel_row) : Z * string :=
  (funnel_date r, funnel_channel r).

Definition spend_key (r : spend_row) : Z * string :=
  (spend_date r, spend_channel r).

(** ** Samples taken by the loops *)

(** The number of samples one pass of [for ch in CHANNELS] takes: four
    for the funnel, then two for a paid channel, one for Email, none
    otherwise. *)
Definition draws_of (ch : string) : nat :=
  if is_paid ch then 6 else if String.eqb ch "Email" then 5 else 4.

Definition draws_of_all (chs : list string) : nat :=
  foldr Nat.add 0%nat (draws_of <$> chs).

(** Two generators that hand out the same first [k] samples. *)
Definition agree (k : nat) (g g' : rng) : Prop :=
  forall n : nat, (n < k)%nat -> g n = g' n.

(** The date, the channel and the purchases of a funnel row. *)
Definition funnel_triple (r : funnel_row) : Z * string * Z :=
  (funnel_date r, funnel_channel r, purchases r).

(** What the aggregation keeps of an order: its id and its calendar day. *)
Definition order_key (o : option string * Z) : option string * Z :=
  (o.1, day_of o.2).

(** * Properties *)

(** ** Rounding and truncation *)

Lemma py_round_bounds (x : Q) :
  (inject_Z (py_round x) - (1 # 2) <= x /\ x <= inject_Z (py_round x) + (1 # 2))%Q.
Proof.
  unfold py_round.
  pose proof (Qfloor_le x) as Hlo. pose proof (Qlt_floor x) as Hhi.
  rewrite inject_Z_plus in Hhi. change (inject_Z 1) with 1%Q in Hhi.
  destruct (Qcompare_spec (x - inject_Z (Qfloor x)) (1 # 2)) as [He|Hl|Hg];
    [destruct (Z.even (Qfloor x))| |];
    rewrite ?inject_Z_plus; change (inject_Z 1) with 1%Q; lra.
Qed.

(** ** C2: channel purchase allocation *)

Lemma allocate_eq (t : Z) :
  allocate t =
    <["Organic"%string :=
        Z.max 0 (t - share t 0.28 - share t 0.22 - share t 0.15 - share t 0.10)]>
    (<["Affiliate"%string := share t 0.10]>
    (<["Email"%string := share t 0.15]>
    (<["Paid Social"%string := share t 0.22]>
    (<["Paid Search"%string := share t 0.28]> ∅)))).
Proof. reflexivity. Qed.

Lemma share_bounds (t : Z) (w : Q) :
  (inject_Z (share t w) - (1 # 2) <= inject_Z t * w
   /\ inject_Z t * w <= inject_Z (share t w) + (1 # 2))%Q.
Proof. apply py_round_bounds. Qed.

Lemma share_nonneg (t : Z) (w : Q) : 0 <= t -> (0 <= w)%Q -> 0 <= share t w.
Proof.
  intros Ht Hw.
  destruct (share_bounds t w) as [_ Hhi].
  assert (Ht' : (inject_Z 0 <= inject_Z t)%Q) by (rewrite <- Zle_Qle; exact Ht).
  change (inject_Z 0) with 0%Q in Ht'.
  assert (Hp : (0 <= inject_Z t * w)%Q) by (apply Qmult_le_0_compat; assumption).
  assert (Hq : (inject_Z (-1) < inject_Z (share t w))%Q).
  { change (inject_Z (-1)) with (-1)%Q. lra. }
  rewrite <- Zlt_Qlt in Hq. lia.
Qed.

(** The first four shares never exceed the day's total: the remainder the
    last channel receives is never negative, so the clamp is never active. *)
Lemma remainder_nonneg (t : Z) :
  0 <= t ->
  0 <= t - share t 0.28 - share t 0.22 - share t 0.15 - share t 0.10.
Proof.
  intros Ht.
  destruct (Z_lt_le_dec t 8) as [Hsmall|Hbig].
  - assert (Hc : t = 0 \/ t = 1 \/ t = 2 \/ t = 3 \/ t = 4 \/ t = 5 \/ t = 6 \/ t = 7)
      by lia.
    repeat (destruct Hc as [->|Hc]; [vm_compute; discriminate|]).
    subst t. vm_compute. discriminate.
  - destruct (share_bounds t 0.28) as [H1 _].
    destruct (share_bounds t 0.22) as [H2 _].
    destruct (share_bounds t 0.15) as [H3 _].
    destruct (share_bounds t 0.10) as [H4 _].
    assert (Ht' : (inject_Z 8 <= inject_Z t)%Q) by (rewrite <- Zle_Qle; exact Hbig).
    change (inject_Z 8) with 8%Q in Ht'.
    assert (Hq : (inject_Z (share t 0.28 + share t 0.22 + share t 0.15 + share t 0.10)
                  <= inject_Z t)%Q).
    { rewrite !inject_Z_plus. lra. }
    rewrite <- Zle_Qle in Hq. lia.
Qed.

(** C2. For a day's total [t >= 0] each of the first four channels, in the
    fixed order, is allocated [round(t * weight)], and Organic is allocated
    [max(0, t - the four)]; when that remainder is non-negative the five
    allocations sum to [t], and Organic's allocation is never negative. *)
Theorem C2_allocation (t : Z) :
  0 <= t ->
  channel_weights.*1 = CHANNELS /\
  allocated t "Paid Search" = py_round (inject_Z t * 0.28) /\
  allocated t "Paid Social" = py_round (inject_Z t * 0.22) /\
  allocated t "Email" = py_round (inject_Z t * 0.15) /\
  allocated t "Affiliate" = py_round (inject_Z t * 0.10) /\
  let first_four :=
    allocated t "Paid Search" + allocated t "Paid Social"
    + allocated t "Email" + allocated t "Affiliate" in
  allocated t "Organic" = Z.max 0 (t - first_four) /\
  (0 <= t - first_four -> foldr Z.add 0 (allocated t <$> CHANNELS) = t) /\
  0 <= allocated t "Organic".
Proof.
  intros _.
  assert (Hs : forall ch : string, allocated t ch = default 0 (allocate t !! ch))
    by reflexivity.
  split; [reflexivity|].
  repeat (split; [reflexivity|]).
  cbv zeta.
  assert (Ho : allocated t "Organic" =
    Z.max 0 (t - (allocated t "Paid Search" + allocated t "Paid Social"
                  + allocated t "Email" + allocated t "Affiliate"))).
  { rewrite !Hs, allocate_eq. simplify_map_eq. f_equal. lia. }
  split; [exact Ho|].
  split; [|rewrite Ho; lia].
  intros Hrem. cbn [CHANNELS fmap list_fmap foldr]. rewrite Ho. lia.
Qed.

Lemma C2_allocation_witness :
  foldr Z.add 0 (allocated 25 <$> CHANNELS) = 25.
Proof.
  refine (proj1 (proj2 (proj2 (proj2 (proj2 (proj2 (proj2
            (C2_allocation 25 _))))))) _); vm_compute; discriminate.
Defined.

(** For every [t >= 0] the five allocations sum to [t] exactly. *)
Lemma allocation_sum_exact (t : Z) :
  0 <= t -> foldr Z.add 0 (allocated t <$> CHANNELS) = t.
Proof.
  intros Ht. pose proof (remainder_nonneg t Ht) as Hr.
  cbn [CHANNELS fmap list_fmap foldr]. unfold allocated.
  rewrite allocate_eq. simplify_map_eq. lia.
Qed.

(** ** Running the generator monad and the loops *)

Lemma bind_run {A B : Type} (c : Rand A) (k : A -> Rand B) (g : rng) :
  (c ≫= k) g = k (c g).1 (c g).2.
Proof. unfold mbind, rand_bind, bind. destruct (c g); reflexivity. Qed.

Lemma ret_run {A : Type} (a : A) (g : rng) : ret a g = (a, g).
Proof. reflexivity. Qed.

Lemma for_each_cons {A S : Type} (body : S -> A -> Rand S) x xs acc g :
  for_each body (x :: xs) acc g
  = for_each body xs (body acc x g).1 (body acc x g).2.
Proof. cbn [for_each]. apply bind_run. Qed.

(** A loop keeps what each pass keeps. *)
Lemma for_each_inv {A S : Type} (body : S -> A -> Rand S)
    (Inv : S -> rng -> Prop) (R : A -> Prop) :
  (forall acc x g, R x -> Inv acc g -> Inv (body acc x g).1 (body acc x g).2) ->
  forall xs acc g, Forall R xs -> Inv acc g ->
    Inv (for_each body xs acc g).1 (for_each body xs acc g).2.
Proof.
  intros Hbody xs. induction xs as [|x xs IH]; intros acc g HR HI.
  - exact HI.
  - rewrite for_each_cons. inversion HR; subst. apply IH; auto.
Qed.

Lemma channel_body_run d wf a acc ch g :
  channel_body d wf a acc ch g
  = ((acc.1 ++ [(channel_rows d wf a ch g).1.1],
      acc.2 ++ [(channel_rows d wf a ch g).1.2]),
     (channel_rows d wf a ch g).2).
Proof. unfold channel_body. rewrite bind_run. reflexivity. Qed.

(** The date and the channel of the two rows of a pass. *)
Lemma channel_rows_keys d wf a ch g :
  let r := (channel_rows d wf a ch g).1 in
  funnel_date r.1 = d /\ funnel_channel r.1 = ch /\
  spend_date r.2 = d /\ spend_channel r.2 = ch.
Proof.
  cbv zeta. unfold channel_rows. rewrite !bind_run. cbn. auto.
Qed.

(** ** C3: one row pair per (date, channel) *)

Lemma channel_loop_keys d wf a chs acc g :
  let out := (for_each (channel_body d wf a) chs acc g).1 in
  funnel_key <$> out.1 = (funnel_key <$> acc.1) ++ (pair d <$> chs) /\
  spend_key <$> out.2 = (spend_key <$> acc.2) ++ (pair d <$> chs).
Proof.
  cbv zeta. revert acc g.
  induction chs as [|ch chs IH]; intros acc g.
  - cbn. rewrite !app_nil_r. auto.
  - rewrite for_each_cons, channel_body_run. cbn [fst snd].
    destruct (IH (acc.1 ++ [(channel_rows d wf a ch g).1.1],
                  acc.2 ++ [(channel_rows d wf a ch g).1.2])
                 (channel_rows d wf a ch g).2) as [IHf IHs].
    cbn [fst snd] in IHf, IHs. rewrite IHf, IHs.
    destruct (channel_rows_keys d wf a ch g) as (Hfd & Hfc & Hsd & Hsc).
    rewrite !fmap_app. cbn [fmap list_fmap].
    unfold funnel_key at 2, spend_key at 2.
    rewrite Hfd, Hfc, Hsd, Hsc, <- !app_assoc. auto.
Qed.

Lemma synthesize_loop_keys (pd : list (Z * Z)) acc g :
  let out := (for_each day_body pd acc g).1 in
  funnel_key <$> out.1 = (funnel_key <$> acc.1) ++ list_prod pd.*1 CHANNELS /\
  spend_key <$> out.2 = (spend_key <$> acc.2) ++ list_prod pd.*1 CHANNELS.
Proof.
  cbv zeta. revert acc g.
  induction pd as [|[d t] pd IH]; intros acc g.
  - cbn. rewrite !app_nil_r. auto.
  - rewrite for_each_cons.
    destruct (IH (day_body acc (d, t) g).1 (day_body acc (d, t) g).2)
      as [IHf IHs].
    rewrite IHf, IHs.
    destruct (channel_loop_keys d (weekend_factor_of d) (allocate t)
                CHANNELS acc g) as [Hf Hs].
    unfold day_body. rewrite Hf, Hs.
    cbn [fmap list_fmap fst list_prod]. rewrite <- !app_assoc. auto.
Qed.

Lemma synthesize_keys (pd : list (Z * Z)) g :
  funnel_key <$> (synthesize pd g).1.1 = list_prod pd.*1 CHANNELS /\
  spend_key <$> (synthesize pd g).1.2 = list_prod pd.*1 CHANNELS.
Proof. exact (synthesize_loop_keys pd ([], []) g). Qed.

Lemma foldl_min_le (l : list Z) (x : Z) : foldl Z.min x l <= x.
Proof.
  revert x. induction l as [|y l IH]; intros x; cbn; [lia|].
  specialize (IH (Z.min x y)). lia.
Qed.

Lemma foldl_max_ge (l : list Z) (x : Z) : x <= foldl Z.max x l.
Proof.
  revert x. induction l as [|y l IH]; intros x; cbn; [lia|].
  specialize (IH (Z.max x y)). lia.
Qed.

Lemma series_min_le_max (l : list Z) (a b : Z) :
  series_min l = Some a -> series_max l = Some b -> a <= b.
Proof.
  destruct l as [|x l]; [discriminate|].
  cbn. intros [= <-] [= <-].
  pose proof (foldl_min_le l x). pose proof (foldl_max_ge l x). lia.
Qed.

Lemma purchases_daily_dates orders all_dates :
  (purchases_daily_of orders all_dates).*1 = all_dates.
Proof.
  unfold purchases_daily_of. rewrite <- list_fmap_compose.
  apply list_fmap_id.
Qed.

Lemma NoDup_list_prod {A B : Type} (l : list A) (k : list B) :
  NoDup l -> NoDup k -> NoDup (list_prod l k).
Proof.
  intros Hl Hk. induction Hl as [|x l Hx Hl IH]; cbn [list_prod].
  - constructor.
  - apply NoDup_app. split; [|split; [|exact IH]].
    + apply (NoDup_fmap_2 (pair x)); exact Hk.
    + intros [x' y] Hin Hin'.
      apply list_elem_of_fmap in Hin as (y' & [= -> ->] & _).
      apply list_elem_of_In, in_prod_iff in Hin' as [Hin' _].
      apply Hx, list_elem_of_In, Hin'.
Qed.

(** What [main] does on an input it accepts: the orders file exists, has
    both columns the program reads, and at least one timestamp parses. *)
Lemma main_success to_datetime (fs : filesystem) g f :
  fs !! ORDERS_FILE = Some f ->
  "order_purchase_timestamp"%string ∈ columns (read_csv f) ->
  "order_id"%string ∈ columns (read_csv f) ->
  dropna to_datetime (rows (read_csv f)) ≠ [] ->
  let kept := dropna to_datetime (rows (read_csv f)) in
  let days := (fun o : option string * Z => day_of o.2) <$> kept in
  exists a b,
    series_min days = Some a /\ series_max days = Some b /\ a <= b /\
    let out := synthesize (purchases_daily_of kept (date_range a b)) g in
    main to_datetime fs g
    = (Ok {| funnel_len := length out.1.1; spend_len := length out.1.2;
             min_date := a; max_date := b |},
       <[OUT_SPEND := SpendCsv out.1.2]>
         (<[OUT_FUNNEL := FunnelCsv out.1.1]> fs),
       out.2).
Proof.
  intros Hf Hts Hid Hne kept days.
  assert (Hdays : days ≠ []).
  { subst days. intros E. apply fmap_nil_inv in E. contradiction. }
  destruct (series_min days) as [a|] eqn:Ha;
    [|destruct days; [congruence|discriminate]].
  destruct (series_max days) as [b|] eqn:Hb;
    [|destruct days; [congruence|discriminate]].
  exists a, b. split; [reflexivity|]. split; [reflexivity|].
  split; [eapply series_min_le_max; eassumption|].
  cbv zeta. unfold main. rewrite Hf.
  rewrite (bool_decide_eq_true_2 _ Hts), (bool_decide_eq_true_2 _ Hid).
  cbn [negb]. fold kept. fold days. rewrite Ha, Hb.
  destruct (synthesize (purchases_daily_of kept (date_range a b)) g)
    as [[fr sr] g']. reflexivity.
Qed.

(** C3. On every run with at least one validly-timestamped order (an
    accepted input), both output tables are written and hold
    [(max_date - min_date + 1) * 5] rows: the (date, channel) keys of the
    funnel rows and of the spend rows, in order, are the cross product of
    the inclusive date range and the five channels, which has no repeated
    pair. Days with no purchase are not skipped. *)
Theorem C3_row_cardinality to_datetime (fs : filesystem) g f :
  fs !! ORDERS_FILE = Some f ->
  "order_purchase_timestamp"%string ∈ columns (read_csv f) ->
  "order_id"%string ∈ columns (read_csv f) ->
  dropna to_datetime (rows (read_csv f)) ≠ [] ->
  exists s fr sr,
    (main to_datetime fs g).1.1 = Ok s /\
    (main to_datetime fs g).1.2 !! OUT_FUNNEL = Some (FunnelCsv fr) /\
    (main to_datetime fs g).1.2 !! OUT_SPEND = Some (SpendCsv sr) /\
    let cross := list_prod (date_range (min_date s) (max_date s)) CHANNELS in
    funnel_key <$> fr = cross /\ spend_key <$> sr = cross /\ NoDup cross /\
    Z.of_nat (length fr) = (max_date s - min_date s + 1) * 5 /\
    Z.of_nat (length sr) = (max_date s - min_date s + 1) * 5 /\
    funnel_len s = length fr /\ spend_len s = length sr.
Proof.
  intros Hf Hts Hid Hne.
  destruct (main_success to_datetime fs g f Hf Hts Hid Hne)
    as (a & b & _ & _ & Hab & Hmain).
  cbv zeta in Hmain. rewrite Hmain. cbn [fst snd min_date max_date].
  set (pd := purchases_daily_of _ _) in *.
  destruct (synthesize_keys pd g) as [Kf Ks].
  assert (Hpd : pd.*1 = date_range a b) by apply purchases_daily_dates.
  rewrite Hpd in Kf, Ks.
  assert (Hlen : Z.of_nat (length (list_prod (date_range a b) CHANNELS))
                 = (b - a + 1) * 5).
  { rewrite length_prod. unfold date_range. rewrite length_seqZ.
    cbn [CHANNELS length]. lia. }
  unfold filesystem in *.
  eexists _, _, _. split; [reflexivity|].
  split; [rewrite lookup_insert_ne by (vm_compute; discriminate);
          apply lookup_insert_eq|].
  split; [apply lookup_insert_eq|].
  cbn [min_date max_date funnel_len spend_len].
  split; [exact Kf|]. split; [exact Ks|].
  split.
  { apply NoDup_list_prod; [apply NoDup_seqZ|].
    unfold CHANNELS. compute_done. }
  split; [rewrite <- Hlen, <- Kf, length_fmap; reflexivity|].
  split; [rewrite <- Hlen, <- Ks, length_fmap; reflexivity|].
  auto.
Qed.

Lemma C3_row_cardinality_witness :
  Example.fs !! ORDERS_FILE = Some (OrdersCsv Example.orders) /\
  dropna Example.to_datetime (rows Example.orders) ≠ [] /\
  exists s fr,
    (main Example.to_datetime Example.fs Example.halves).1.1 = Ok s /\
    (main Example.to_datetime Example.fs Example.halves).1.2 !! OUT_FUNNEL
      = Some (FunnelCsv fr) /\
    Z.of_nat (length fr) = (max_date s - min_date s + 1) * 5.
Proof.
  split; [reflexivity|]. split; [vm_compute; discriminate|].
  destruct (C3_row_cardinality Example.to_datetime Example.fs Example.halves
              (OrdersCsv Example.orders))
    as (s & fr & sr & Hs & Hfr & _ & _ & _ & _ & Hlen & _).
  - reflexivity.
  - cbn. set_solver.
  - cbn. set_solver.
  - vm_compute. discriminate.
  - exists s, fr. auto.
Defined.

(** ** C4: the two fatal preconditions *)

(** C4. If the input file does not exist, or the loaded table has no column
    [order_purchase_timestamp], the run raises an error whose message
    contains the path of the missing file, respectively the name of the
    missing column, and the filesystem is left as it was: neither output
    file is written. *)
Theorem C4_fatal_preconditions to_datetime (fs : filesystem) g :
  (fs !! ORDERS_FILE = None ->
   exists msg pre post,
     main to_datetime fs g = (Raise (FileNotFoundError msg), fs, g) /\
     msg = (pre ++ ORDERS_FILE ++ post)%string) /\
  (forall f, fs !! ORDERS_FILE = Some f ->
   "order_purchase_timestamp"%string ∉ columns (read_csv f) ->
   exists msg pre post,
     main to_datetime fs g = (Raise (ValueError msg), fs, g) /\
     msg = (pre ++ "order_purchase_timestamp" ++ post)%string).
Proof.
  split.
  - intros Hnone. exists missing_file_msg, "Missing "%string,
      ". Put Olist CSVs in warehouse/raw_data/ first."%string.
    unfold main. rewrite Hnone. split; reflexivity.
  - intros f Hf Hcol. exists missing_column_msg, "Expected column '"%string,
      "' not found in olist_orders_dataset.csv"%string.
    unfold main. rewrite Hf, (bool_decide_eq_false_2 _ Hcol).
    split; reflexivity.
Qed.

Lemma C4_fatal_preconditions_witness :
  let no_file : filesystem := {[ OUT_FUNNEL := FunnelCsv [] ]} in
  let no_column : filesystem :=
    {[ ORDERS_FILE := OrdersCsv (Table ["order_id"%string] []) ]} in
  (exists msg, main Example.to_datetime no_file Example.halves
               = (Raise (FileNotFoundError msg), no_file, Example.halves)) /\
  (exists msg, main Example.to_datetime no_column Example.halves
               = (Raise (ValueError msg), no_column, Example.halves)).
Proof.
  intros no_file no_column. split.
  - destruct (proj1 (C4_fatal_preconditions Example.to_datetime no_file
                       Example.halves)) as (msg & _ & _ & H & _).
    + reflexivity.
    + exists msg. exact H.
  - destruct (proj2 (C4_fatal_preconditions Example.to_datetime no_column
                       Example.halves)
                (OrdersCsv (Table ["order_id"%string] [])))
      as (msg & _ & _ & H & _).
    + reflexivity.
    + cbn. compute_done.
    + exists msg. exact H.
Defined.

(** ** Truncation, ceiling and rounding on the rationals *)

Lemma py_int_inject (z : Z) : py_int (inject_Z z) = z.
Proof. unfold py_int. cbn. apply Z.quot_1_r. Qed.

Lemma py_int_np_ceil (x : Q) : py_int (np_ceil x) = Qceiling x.
Proof. apply py_int_inject. Qed.

Lemma py_int_nonneg (x : Q) : (0 <= x)%Q -> py_int x = Qfloor x.
Proof.
  destruct x as [n d]. unfold Qle, py_int, Qfloor. cbn. intros Hn.
  apply Z.quot_div_nonneg; lia.
Qed.

Lemma py_int_nonpos (x : Q) : (x <= 0)%Q -> py_int x = Qceiling x.
Proof.
  destruct x as [n d]. unfold Qle, py_int, Qceiling, Qfloor. cbn. intros Hn.
  rewrite <- (Z.opp_involutive n) at 1. rewrite Z.quot_opp_l by lia.
  f_equal. apply Z.quot_div_nonneg; lia.
Qed.

(** Truncation toward zero is monotone. *)
Lemma py_int_mono (x y : Q) : (x <= y)%Q -> py_int x <= py_int y.
Proof.
  intros Hxy.
  destruct (Qlt_le_dec x 0) as [Hx|Hx]; destruct (Qlt_le_dec y 0) as [Hy|Hy].
  - rewrite !py_int_nonpos by lra. apply Qceiling_resp_le, Hxy.
  - rewrite (py_int_nonpos x), (py_int_nonneg y) by lra.
    assert (H1 : Qceiling x <= Qceiling 0) by (apply Qceiling_resp_le; lra).
    assert (H2 : Qfloor 0 <= Qfloor y) by (apply Qfloor_resp_le; lra).
    change (Qceiling 0) with 0 in H1. change (Qfloor 0) with 0 in H2. lia.
  - lra.
  - rewrite !py_int_nonneg by lra. apply Qfloor_resp_le, Hxy.
Qed.

Lemma py_int_zero (x : Q) : x == 0 -> py_int x = 0.
Proof.
  intros Hx. rewrite py_int_nonneg by lra. rewrite (Qfloor_comp _ _ Hx).
  reflexivity.
Qed.

Lemma inject_Z_nonneg (z : Z) : 0 <= z -> (0 <= inject_Z z)%Q.
Proof. intros Hz. change 0%Q with (inject_Z 0). rewrite <- Zle_Qle. exact Hz. Qed.

Lemma inject_Z_le_inv (a b : Z) : (inject_Z a <= inject_Z b)%Q -> a <= b.
Proof. rewrite <- Zle_Qle. auto. Qed.

Lemma py_round_zero (x : Q) : x == 0 -> py_round x = 0.
Proof.
  intros Hx. destruct (py_round_bounds x) as [Hlo Hhi].
  assert (H1 : (inject_Z (-1) < inject_Z (py_round x))%Q)
    by (change (inject_Z (-1)) with (-1)%Q; lra).
  assert (H2 : (inject_Z (py_round x) < inject_Z 1)%Q)
    by (change (inject_Z 1) with 1%Q; lra).
  rewrite <- Zlt_Qlt in H1, H2. lia.
Qed.

Lemma py_round_nonneg (x : Q) : (0 <= x)%Q -> 0 <= py_round x.
Proof.
  intros Hx. destruct (py_round_bounds x) as [_ Hhi].
  assert (H1 : (inject_Z (-1) < inject_Z (py_round x))%Q)
    by (change (inject_Z (-1)) with (-1)%Q; lra).
  rewrite <- Zlt_Qlt in H1. lia.
Qed.

Lemma py_round2_zero (x : Q) : x == 0 -> py_round2 x == 0.
Proof.
  intros Hx. unfold py_round2. rewrite py_round_zero; [reflexivity|].
  rewrite Hx. reflexivity.
Qed.

Lemma py_round2_nonneg (x : Q) : (0 <= x)%Q -> (0 <= py_round2 x)%Q.
Proof.
  intros Hx. unfold py_round2, Qle. cbn. rewrite Z.mul_1_r.
  apply py_round_nonneg. lra.
Qed.

(** [round(x, 2)] is within half a cent of [x]. *)
Lemma py_round2_bounds (x : Q) :
  (py_round2 x - (1 # 200) <= x /\ x <= py_round2 x + (1 # 200))%Q.
Proof.
  destruct (py_round_bounds (x * 100)) as [Hlo Hhi].
  assert (E : py_round2 x == inject_Z (py_round (x * 100)) / 100).
  { unfold py_round2. rewrite (Qmake_Qdiv _ 100). reflexivity. }
  rewrite E. split.
  - apply Qmult_le_r with (z := 100%Q); [reflexivity|]. field_simplify. lra.
  - apply Qmult_le_r with (z := 100%Q); [reflexivity|]. field_simplify. lra.
Qed.

Lemma py_maxQ_nonneg (x : Q) : (0 <= py_maxQ x 0)%Q.
Proof. unfold py_maxQ. destruct (Qlt_le_dec x 0); lra. Qed.

Lemma py_maxQ_zero (x : Q) : x == 0 -> py_maxQ x 0 == 0.
Proof. intros Hx. unfold py_maxQ. destruct (Qlt_le_dec x 0); lra. Qed.

Lemma py_maxQ_l (a b : Q) : (b <= a)%Q -> py_maxQ a b = a.
Proof. intros H. unfold py_maxQ. destruct (Qlt_le_dec a b); [lra|reflexivity]. Qed.

(** ** One pass of the channel loop, written out *)

Lemma raw_spend_run (ch : string) (sessions : Z) (g : rng) :
  raw_spend ch sessions g =
    if is_paid ch then
      ((inject_Z sessions * (0.5 + (2.5 - 0.5) * g 0%nat)
         * (0.6 + (1.2 - 0.6) * g 1%nat))%Q, after 2 g)
    else if String.eqb ch "Email" then
      ((20 + (120 - 20) * g 0%nat)%Q, after 1 g)
    else (0%Q, g).
Proof.
  unfold raw_spend. destruct (is_paid ch); [reflexivity|].
  destruct (String.eqb ch "Email"); reflexivity.
Qed.

Lemma channel_rows_run d wf (a : gmap string Z) ch g :
  let purchases := default 0 (a !! ch) in
  let lead_rate := (0.02 + (0.08 - 0.02) * g 0%nat)%Q in
  let close_rate := (0.05 + (0.18 - 0.05) * g 1%nat)%Q in
  let noise := (0.95 + (1.10 - 0.95) * g 2%nat)%Q in
  let leads0 := Qceiling (inject_Z purchases / py_maxQ close_rate 0.01 * noise) in
  let noise' := (0.95 + (1.15 - 0.95) * g 3%nat)%Q in
  let sessions0 := Qceiling (inject_Z leads0 / py_maxQ lead_rate 0.01 * noise') in
  let sessions := py_int (inject_Z sessions0 * wf) in
  let leads := py_int (inject_Z leads0 * wf) in
  let sp := raw_spend ch sessions (after 4 g) in
  channel_rows d wf a ch g =
    (({| funnel_date := d; funnel_channel := ch;
         sessions := Z.max sessions 0; leads := Z.max leads 0;
         purchases := Z.max purchases 0 |},
      {| spend_date := d; spend_channel := ch;
         spend := py_round2 (py_maxQ (sp.1 * wf) 0) |}),
     sp.2).
Proof.
  cbv zeta. unfold channel_rows. rewrite !bind_run.
  cbn [uniform random_sample fst snd]. rewrite ?bind_run, ?ret_run.
  cbn [fst snd]. rewrite !py_int_np_ceil. reflexivity.
Qed.

Lemma unit_draws_after (k : nat) (g : rng) : unit_draws g -> unit_draws (after k g).
Proof. intros Hg n. apply Hg. Qed.

Lemma channel_rows_unit_draws d wf a ch g :
  unit_draws g -> unit_draws (channel_rows d wf a ch g).2.
Proof.
  intros Hg. rewrite channel_rows_run. cbn [snd]. rewrite raw_spend_run.
  destruct (is_paid ch); [|destruct (String.eqb ch "Email")]; cbn [snd];
    repeat apply unit_draws_after; exact Hg.
Qed.

(** What holds of the two rows of every pass holds of every row of the
    two lists. [Inv] is what the passes keep of the generator, [T] what is
    known of the daily totals. *)
Lemma synthesize_Forall (Pf : funnel_row -> Prop) (Ps : spend_row -> Prop)
    (Inv : rng -> Prop) (T : Z -> Prop) :
  (forall d wf a ch g, Inv g -> Inv (channel_rows d wf a ch g).2) ->
  (forall d t ch g, Inv g -> T t -> ch ∈ CHANNELS ->
     Pf (channel_rows d (weekend_factor_of d) (allocate t) ch g).1.1 /\
     Ps (channel_rows d (weekend_factor_of d) (allocate t) ch g).1.2) ->
  forall pd g, Inv g -> Forall (fun r : Z * Z => T r.2) pd ->
    Forall Pf (synthesize pd g).1.1 /\ Forall Ps (synthesize pd g).1.2.
Proof.
  intros Hinv Hrow pd g Hg Hpd.
  pose (I := fun (acc : out_rows) (g : rng) =>
               (Forall Pf acc.1 /\ Forall Ps acc.2) /\ Inv g).
  assert (Hloop : I (synthesize pd g).1 (synthesize pd g).2).
  { unfold synthesize.
    apply (for_each_inv day_body I (fun r : Z * Z => T r.2)); [|exact Hpd|].
    - intros acc [d t] g0 Ht HI. unfold day_body.
      apply (for_each_inv _ I (fun ch => ch ∈ CHANNELS)).
      + intros acc' ch g1 Hch [[HPf HPs] Hg1].
        rewrite channel_body_run. cbn [fst snd].
        destruct (Hrow d t ch g1 Hg1 Ht Hch) as [Hf Hs].
        repeat split; try (apply Forall_app; split; auto); auto.
      + apply Forall_forall. auto.
      + exact HI.
    - repeat split; auto; constructor. }
  exact (proj1 Hloop).
Qed.

Lemma purchases_daily_nonneg orders all_dates :
  Forall (fun r : Z * Z => 0 <= r.2) (purchases_daily_of orders all_dates).
Proof.
  unfold purchases_daily_of. apply Forall_fmap, Forall_forall.
  intros d _. cbn. unfold nunique_on. lia.
Qed.

(** The same, for the two tables an accepted run writes. *)
Lemma main_Forall (Pf : funnel_row -> Prop) (Ps : spend_row -> Prop)
    (Inv : rng -> Prop) to_datetime (fs : filesystem) g f :
  (forall d wf a ch g, Inv g -> Inv (channel_rows d wf a ch g).2) ->
  (forall d t ch g, Inv g -> 0 <= t -> ch ∈ CHANNELS ->
     Pf (channel_rows d (weekend_factor_of d) (allocate t) ch g).1.1 /\
     Ps (channel_rows d (weekend_factor_of d) (allocate t) ch g).1.2) ->
  Inv g ->
  fs !! ORDERS_FILE = Some f ->
  "order_purchase_timestamp"%string ∈ columns (read_csv f) ->
  "order_id"%string ∈ columns (read_csv f) ->
  dropna to_datetime (rows (read_csv f)) ≠ [] ->
  exists s fr sr,
    (main to_datetime fs g).1.1 = Ok s /\
    (main to_datetime fs g).1.2 !! OUT_FUNNEL = Some (FunnelCsv fr) /\
    (main to_datetime fs g).1.2 !! OUT_SPEND = Some (SpendCsv sr) /\
    Forall Pf fr /\ Forall Ps sr.
Proof.
  intros Hinv Hrow Hg Hf Hts Hid Hne.
  destruct (main_success to_datetime fs g f Hf Hts Hid Hne)
    as (a & b & _ & _ & _ & Hmain).
  cbv zeta in Hmain. rewrite Hmain. cbn [fst snd].
  set (pd := purchases_daily_of _ _).
  destruct (synthesize_Forall Pf Ps Inv (fun t => 0 <= t) Hinv Hrow pd g Hg
              (purchases_daily_nonneg _ _)) as [HPf HPs].
  unfold filesystem in *.
  eexists _, _, _. split; [reflexivity|].
  split; [rewrite lookup_insert_ne by (vm_compute; discriminate);
          apply lookup_insert_eq|].
  split; [apply lookup_insert_eq|]. auto.
Qed.

(** ** Ranges of the draws and of the weekend factor *)

Lemma uniform_range (low high u : Q) :
  (low <= high)%Q -> (0 <= u)%Q -> (u < 1)%Q ->
  (low <= low + (high - low) * u /\ low + (high - low) * u <= high)%Q.
Proof.
  intros Hlh Hu0 Hu1.
  assert (H0 : (0 <= (high - low) * u)%Q) by (apply Qmult_le_0_compat; lra).
  assert (H1 : (0 <= (high - low) * (1 - u))%Q) by (apply Qmult_le_0_compat; lra).
  split; lra.
Qed.

Lemma weekend_factor_cases (d : Z) :
  weekend_factor_of d = 0.85%Q \/ weekend_factor_of d = 1.0%Q.
Proof. unfold weekend_factor_of. destruct (5 <=? weekday d); auto. Qed.

Lemma weekend_factor_range (d : Z) :
  (0.85 <= weekend_factor_of d)%Q /\ (weekend_factor_of d <= 1)%Q.
Proof. destruct (weekend_factor_cases d) as [-> | ->]; split; lra. Qed.

(** Dividing a count by a rate and multiplying by a noise factor that is at
    least [k] times the rate gives at least [k] times the count. *)
Lemma back_derivation_ge (p : Z) (rate noise k : Q) :
  0 <= p -> (0 < rate)%Q -> (k * rate <= noise)%Q ->
  (k * inject_Z p <= inject_Z p / rate * noise)%Q.
Proof.
  intros Hp Hr Hk. apply inject_Z_nonneg in Hp.
  set (x := (inject_Z p / rate)%Q).
  assert (Hx : (0 <= x)%Q) by (apply Qle_shift_div_l; lra).
  assert (Hpx : inject_Z p == x * rate) by (unfold x; field; lra).
  assert (H0 : (0 <= x * (noise - k * rate))%Q)
    by (apply Qmult_le_0_compat; lra).
  rewrite Hpx at 1. lra.
Qed.

Lemma allocated_nonneg (t : Z) (ch : string) : 0 <= t -> 0 <= allocated t ch.
Proof.
  intros Ht. unfold allocated. rewrite allocate_eq.
  pose proof (share_nonneg t 0.28 Ht) as H1.
  pose proof (share_nonneg t 0.22 Ht) as H2.
  pose proof (share_nonneg t 0.15 Ht) as H3.
  pose proof (share_nonneg t 0.10 Ht) as H4.
  rewrite !lookup_insert, lookup_empty.
  repeat case_decide; cbn [default from_option id];
    try (apply H1 || apply H2 || apply H3 || apply H4; lra); lia.
Qed.

(** ** The funnel of one pass *)

(** With draws in range and a non-negative allocation, the counts before
    dampening are ordered with room to spare: leads are at least five times
    the purchases and sessions at least the leads. *)
Lemma undampened_order (p : Z) (u0 u1 u2 u3 : Q) :
  0 <= p ->
  (0 <= u0 < 1)%Q -> (0 <= u1 < 1)%Q -> (0 <= u2 < 1)%Q -> (0 <= u3 < 1)%Q ->
  let lead_rate := (0.02 + (0.08 - 0.02) * u0)%Q in
  let close_rate := (0.05 + (0.18 - 0.05) * u1)%Q in
  let noise := (0.95 + (1.10 - 0.95) * u2)%Q in
  let leads0 := Qceiling (inject_Z p / py_maxQ close_rate 0.01 * noise) in
  let noise' := (0.95 + (1.15 - 0.95) * u3)%Q in
  let sessions0 := Qceiling (inject_Z leads0 / py_maxQ lead_rate 0.01 * noise') in
  5 * p <= leads0 /\ leads0 <= sessions0.
Proof.
  intros Hp [H00 H01] [H10 H11] [H20 H21] [H30 H31]. cbv zeta.
  destruct (uniform_range 0.02 0.08 u0) as [Hl0 Hl1]; [lra..|].
  destruct (uniform_range 0.05 0.18 u1) as [Hc0 Hc1]; [lra..|].
  destruct (uniform_range 0.95 1.10 u2) as [Hn0 Hn1]; [lra..|].
  destruct (uniform_range 0.95 1.15 u3) as [Hm0 Hm1]; [lra..|].
  rewrite !py_maxQ_l by lra.
  set (lead_rate := (0.02 + (0.08 - 0.02) * u0)%Q) in *.
  set (close_rate := (0.05 + (0.18 - 0.05) * u1)%Q) in *.
  set (noise := (0.95 + (1.10 - 0.95) * u2)%Q) in *.
  set (noise' := (0.95 + (1.15 - 0.95) * u3)%Q) in *.
  assert (HL : 5 * p <= Qceiling (inject_Z p / close_rate * noise)).
  { apply inject_Z_le_inv.
    eapply Qle_trans; [|apply Qle_ceiling].
    rewrite inject_Z_mult. change (inject_Z 5) with 5%Q.
    apply back_derivation_ge; [exact Hp|lra|lra]. }
  split; [exact HL|].
  set (leads0 := Qceiling (inject_Z p / close_rate * noise)) in *.
  apply inject_Z_le_inv.
  eapply Qle_trans; [|apply Qle_ceiling].
  assert (H : (1 * inject_Z leads0 <= inject_Z leads0 / lead_rate * noise')%Q)
    by (apply back_derivation_ge; [lia|lra|lra]).
  lra.
Qed.

(** Dampening keeps the order, since truncation is monotone, and leaves
    the leads above the purchases. *)
Lemma dampened_order (p leads0 sessions0 : Z) (wf : Q) :
  0 <= p -> 5 * p <= leads0 -> leads0 <= sessions0 ->
  (0.85 <= wf)%Q -> (wf <= 1)%Q ->
  let sessions := py_int (inject_Z sessions0 * wf) in
  let leads := py_int (inject_Z leads0 * wf) in
  Z.max p 0 <= Z.max leads 0 /\ Z.max leads 0 <= Z.max sessions 0 /\
  0 <= sessions /\ sessions <= sessions0.
Proof.
  intros Hp HL HS Hw0 Hw1. cbv zeta.
  assert (Hp' := inject_Z_nonneg p Hp).
  assert (HL' : (5 * inject_Z p <= inject_Z leads0)%Q).
  { change 5%Q with (inject_Z 5). rewrite <- inject_Z_mult, <- Zle_Qle. exact HL. }
  assert (HS' : (inject_Z leads0 <= inject_Z sessions0)%Q)
    by (rewrite <- Zle_Qle; exact HS).
  assert (Hpl : p <= py_int (inject_Z leads0 * wf)).
  { rewrite <- (py_int_inject p) at 1. apply py_int_mono.
    assert (H0 : (0 <= inject_Z leads0 * (wf - 0.85))%Q)
      by (apply Qmult_le_0_compat; lra).
    lra. }
  assert (Hls : py_int (inject_Z leads0 * wf) <= py_int (inject_Z sessions0 * wf)).
  { apply py_int_mono.
    assert (H0 : (0 <= (inject_Z sessions0 - inject_Z leads0) * wf)%Q)
      by (apply Qmult_le_0_compat; lra).
    lra. }
  assert (Hss : py_int (inject_Z sessions0 * wf) <= sessions0).
  { rewrite <- (py_int_inject sessions0) at 2. apply py_int_mono.
    assert (H0 : (0 <= inject_Z sessions0 * (1 - wf))%Q)
      by (apply Qmult_le_0_compat; lra).
    lra. }
  lia.
Qed.

Lemma funnel_ordered d t ch g :
  unit_draws g -> 0 <= t ->
  let r := (channel_rows d (weekend_factor_of d) (allocate t) ch g).1.1 in
  purchases r <= leads r /\ leads r <= sessions r.
Proof.
  intros Hg Ht. cbv zeta. rewrite channel_rows_run.
  cbn [fst purchases leads sessions].
  fold (allocated t ch). pose proof (allocated_nonneg t ch Ht) as Hp.
  destruct (undampened_order (allocated t ch) (g 0%nat) (g 1%nat) (g 2%nat)
              (g 3%nat) Hp (Hg _) (Hg _) (Hg _) (Hg _)) as [HL HS].
  destruct (weekend_factor_range d) as [Hw0 Hw1].
  destruct (dampened_order _ _ _ _ Hp HL HS Hw0 Hw1) as (H1 & H2 & _).
  split; assumption.
Qed.

Lemma spend_row_nonneg d wf a ch g :
  (0 <= spend (channel_rows d wf a ch g).1.2)%Q.
Proof.
  rewrite channel_rows_run. cbn [fst snd spend].
  apply py_round2_nonneg, py_maxQ_nonneg.
Qed.

Lemma organic_spend_zero d wf a g :
  spend (channel_rows d wf a "Organic" g).1.2 == 0.
Proof.
  rewrite channel_rows_run. cbn [fst snd spend]. rewrite raw_spend_run.
  change (is_paid "Organic") with false.
  change (String.eqb "Organic" "Email") with false. cbn [fst].
  apply py_round2_zero, py_maxQ_zero. ring.
Qed.

(** The keys of the two tables an accepted run writes. *)
Lemma main_keys to_datetime (fs : filesystem) g f :
  fs !! ORDERS_FILE = Some f ->
  "order_purchase_timestamp"%string ∈ columns (read_csv f) ->
  "order_id"%string ∈ columns (read_csv f) ->
  dropna to_datetime (rows (read_csv f)) ≠ [] ->
  exists s fr sr,
    (main to_datetime fs g).1.1 = Ok s /\
    (main to_datetime fs g).1.2 !! OUT_FUNNEL = Some (FunnelCsv fr) /\
    (main to_datetime fs g).1.2 !! OUT_SPEND = Some (SpendCsv sr) /\
    funnel_key <$> fr = list_prod (date_range (min_date s) (max_date s)) CHANNELS /\
    spend_key <$> sr = list_prod (date_range (min_date s) (max_date s)) CHANNELS.
Proof.
  intros Hf Hts Hid Hne.
  destruct (main_success to_datetime fs g f Hf Hts Hid Hne)
    as (a & b & _ & _ & _ & Hmain).
  cbv zeta in Hmain. rewrite Hmain. cbn [fst snd].
  set (pd := purchases_daily_of _ _).
  destruct (synthesize_keys pd g) as [Kf Ks].
  assert (Hpd : pd.*1 = date_range a b) by apply purchases_daily_dates.
  rewrite Hpd in Kf, Ks. unfold filesystem in *.
  eexists _, _, _. split; [reflexivity|].
  split; [rewrite lookup_insert_ne by (vm_compute; discriminate);
          apply lookup_insert_eq|].
  split; [apply lookup_insert_eq|]. cbn [min_date max_date]. auto.
Qed.

Lemma Example_unit_draws : unit_draws Example.halves.
Proof. intros n. unfold Example.halves. split; lra. Qed.

(** ** C5: Organic spend *)

(** C5. On every accepted run, every spend row of the Organic channel has
    spend exactly 0.0, and every date of the range has such a row. *)
Theorem C5_organic_spend_zero to_datetime (fs : filesystem) g f :
  fs !! ORDERS_FILE = Some f ->
  "order_purchase_timestamp"%string ∈ columns (read_csv f) ->
  "order_id"%string ∈ columns (read_csv f) ->
  dropna to_datetime (rows (read_csv f)) ≠ [] ->
  exists s sr,
    (main to_datetime fs g).1.1 = Ok s /\
    (main to_datetime fs g).1.2 !! OUT_SPEND = Some (SpendCsv sr) /\
    Forall (fun r => spend_channel r = "Organic"%string -> spend r == 0) sr /\
    forall d, d ∈ date_range (min_date s) (max_date s) ->
      exists r, r ∈ sr /\ spend_date r = d /\
                spend_channel r = "Organic"%string /\ spend r == 0.
Proof.
  intros Hf Hts Hid Hne.
  destruct (main_Forall (fun _ => True)
              (fun r => spend_channel r = "Organic"%string -> spend r == 0)
              (fun _ => True) to_datetime fs g f)
    as (s & fr & sr & Hs & _ & Hsr & _ & Hall); auto.
  { intros d t ch g0 _ _ _. split; [exact I|].
    destruct (channel_rows_keys d (weekend_factor_of d) (allocate t) ch g0)
      as (_ & _ & _ & Hch).
    cbv zeta in Hch. rewrite Hch. intros ->. apply organic_spend_zero. }
  destruct (main_keys to_datetime fs g f Hf Hts Hid Hne)
    as (s' & _ & sr' & Hs' & _ & Hsr' & _ & Hkeys).
  assert (s' = s) by congruence. assert (sr' = sr) by congruence. subst s' sr'.
  exists s, sr. repeat split; try assumption.
  intros d Hd.
  assert (Hin : (d, "Organic"%string) ∈ spend_key <$> sr).
  { rewrite Hkeys. apply list_elem_of_In, in_prod; apply list_elem_of_In;
      [exact Hd|]. unfold CHANNELS. repeat constructor. }
  apply list_elem_of_fmap in Hin as (r & Hkey & Hr).
  injection Hkey as Hd' Hc'.
  exists r. repeat split; auto.
  rewrite Forall_forall in Hall. apply Hall; auto.
Qed.

Lemma C5_organic_spend_zero_witness :
  dropna Example.to_datetime (rows Example.orders) ≠ [] /\
  exists sr,
    (main Example.to_datetime Example.fs Example.halves).1.2 !! OUT_SPEND
      = Some (SpendCsv sr) /\
    Forall (fun r => spend_channel r = "Organic"%string -> spend r == 0) sr.
Proof.
  split; [vm_compute; discriminate|].
  destruct (C5_organic_spend_zero Example.to_datetime Example.fs Example.halves
              (OrdersCsv Example.orders))
    as (s & sr & _ & Hsr & Hall & _).
  - reflexivity.
  - cbn. set_solver.
  - cbn. set_solver.
  - vm_compute. discriminate.
  - exists sr. auto.
Defined.

(** ** C6: nothing emitted is negative *)

(** C6. Whatever the daily totals and whatever the generator hands out,
    every funnel row the loops build has [sessions >= 0], [leads >= 0] and
    [purchases >= 0] and every spend row has [spend >= 0]; so have the rows
    of the two tables an accepted run writes. *)
Theorem C6_rows_nonneg to_datetime (fs : filesystem) (g : rng) :
  (forall purchases_daily : list (Z * Z),
     Forall (fun r => 0 <= sessions r /\ 0 <= leads r /\ 0 <= purchases r)
            (synthesize purchases_daily g).1.1 /\
     Forall (fun r => (0 <= spend r)%Q) (synthesize purchases_daily g).1.2) /\
  (forall f,
     fs !! ORDERS_FILE = Some f ->
     "order_purchase_timestamp"%string ∈ columns (read_csv f) ->
     "order_id"%string ∈ columns (read_csv f) ->
     dropna to_datetime (rows (read_csv f)) ≠ [] ->
     exists s fr sr,
       (main to_datetime fs g).1.1 = Ok s /\
       (main to_datetime fs g).1.2 !! OUT_FUNNEL = Some (FunnelCsv fr) /\
       (main to_datetime fs g).1.2 !! OUT_SPEND = Some (SpendCsv sr) /\
       Forall (fun r => 0 <= sessions r /\ 0 <= leads r /\ 0 <= purchases r) fr /\
       Forall (fun r => (0 <= spend r)%Q) sr).
Proof.
  assert (Hrow : forall d wf a ch g0,
    (0 <= sessions (channel_rows d wf a ch g0).1.1 /\
     0 <= leads (channel_rows d wf a ch g0).1.1 /\
     0 <= purchases (channel_rows d wf a ch g0).1.1) /\
    (0 <= spend (channel_rows d wf a ch g0).1.2)%Q).
  { intros. split; [|apply spend_row_nonneg].
    rewrite channel_rows_run. cbn [fst sessions leads purchases]. lia. }
  split.
  - intros pd.
    apply (synthesize_Forall _ _ (fun _ => True) (fun _ => True)); auto.
    apply Forall_forall. auto.
  - intros f Hf Hts Hid Hne.
    apply (main_Forall _ _ (fun _ => True) to_datetime fs g f); auto.
Qed.

Lemma C6_rows_nonneg_witness :
  dropna Example.to_datetime (rows Example.orders) ≠ [] /\
  exists fr sr,
    (main Example.to_datetime Example.fs Example.halves).1.2 !! OUT_FUNNEL
      = Some (FunnelCsv fr) /\
    (main Example.to_datetime Example.fs Example.halves).1.2 !! OUT_SPEND
      = Some (SpendCsv sr) /\
    Forall (fun r => 0 <= sessions r /\ 0 <= leads r /\ 0 <= purchases r) fr /\
    Forall (fun r => (0 <= spend r)%Q) sr.
Proof.
  split; [vm_compute; discriminate|].
  destruct (proj2 (C6_rows_nonneg Example.to_datetime Example.fs Example.halves)
              (OrdersCsv Example.orders))
    as (s & fr & sr & _ & Hfr & Hsr & Hf & Hs).
  - reflexivity.
  - cbn. set_solver.
  - cbn. set_solver.
  - vm_compute. discriminate.
  - exists fr, sr. auto.
Defined.

(** ** C9: the funnel narrows *)

(** C9. On every accepted run whose draws lie in [0, 1), every funnel row
    has [sessions >= leads] and [leads >= purchases]. *)
Theorem C9_funnel_monotone to_datetime (fs : filesystem) g f :
  unit_draws g ->
  fs !! ORDERS_FILE = Some f ->
  "order_purchase_timestamp"%string ∈ columns (read_csv f) ->
  "order_id"%string ∈ columns (read_csv f) ->
  dropna to_datetime (rows (read_csv f)) ≠ [] ->
  exists s fr,
    (main to_datetime fs g).1.1 = Ok s /\
    (main to_datetime fs g).1.2 !! OUT_FUNNEL = Some (FunnelCsv fr) /\
    Forall (fun r => sessions r >= leads r /\ leads r >= purchases r) fr.
Proof.
  intros Hg Hf Hts Hid Hne.
  destruct (main_Forall
              (fun r => sessions r >= leads r /\ leads r >= purchases r)
              (fun _ => True) unit_draws to_datetime fs g f)
    as (s & fr & sr & Hs & Hfr & _ & Hall & _); auto.
  - intros. apply channel_rows_unit_draws. assumption.
  - intros d t ch g0 Hg0 Ht _. split; [|exact I].
    destruct (funnel_ordered d t ch g0 Hg0 Ht). lia.
  - exists s, fr. auto.
Qed.

Lemma C9_funnel_monotone_witness :
  unit_draws Example.halves /\
  exists fr,
    (main Example.to_datetime Example.fs Example.halves).1.2 !! OUT_FUNNEL
      = Some (FunnelCsv fr) /\
    Forall (fun r => sessions r >= leads r /\ leads r >= purchases r) fr.
Proof.
  split; [exact Example_unit_draws|].
  destruct (C9_funnel_monotone Example.to_datetime Example.fs Example.halves
              (OrdersCsv Example.orders))
    as (s & fr & _ & Hfr & Hall).
  - exact Example_unit_draws.
  - reflexivity.
  - cbn. set_solver.
  - cbn. set_solver.
  - vm_compute. discriminate.
  - exists fr. auto.
Defined.

(** ** One pass in terms of the named values *)

Lemma funnel_row_run d wf (a : gmap string Z) ch g :
  let p := default 0 (a !! ch) in
  (channel_rows d wf a ch g).1.1 =
    {| funnel_date := d; funnel_channel := ch;
       sessions := Z.max (py_int (inject_Z (sessions_undampened p g) * wf)) 0;
       leads := Z.max (py_int (inject_Z (leads_undampened p g) * wf)) 0;
       purchases := Z.max p 0 |}.
Proof. cbv zeta. rewrite channel_rows_run. reflexivity. Qed.

Lemma paid_spend_run d wf (a : gmap string Z) ch g :
  is_paid ch = true ->
  let p := default 0 (a !! ch) in
  spend (channel_rows d wf a ch g).1.2 =
    py_round2 (py_maxQ
      (inject_Z (py_int (inject_Z (sessions_undampened p g) * wf))
       * cpc_of g * spend_factor_of g * wf) 0).
Proof.
  intros Hpaid. cbv zeta. rewrite channel_rows_run. cbn [fst snd spend].
  rewrite raw_spend_run, Hpaid. reflexivity.
Qed.

Lemma py_int_times_one (z : Z) : py_int (inject_Z z * 1.0) = z.
Proof.
  unfold py_int. cbn. apply Z.quot_mul. lia.
Qed.

(** Truncating after the factor 0.85 never gives more than the count. *)
Lemma dampen_le (z : Z) : Z.max (py_int (inject_Z z * 0.85)) 0 <= Z.max z 0.
Proof.
  destruct (Z_lt_le_dec z 0) as [Hneg|Hpos].
  - assert (Hq : (inject_Z z <= inject_Z 0)%Q) by (rewrite <- Zle_Qle; lia).
    change (inject_Z 0) with 0%Q in Hq.
    assert (H : py_int (inject_Z z * 0.85) <= py_int 0)
      by (apply py_int_mono; lra).
    change (py_int 0) with 0 in H. lia.
  - assert (Hq := inject_Z_nonneg z Hpos).
    assert (H : py_int (inject_Z z * 0.85) <= py_int (inject_Z z))
      by (apply py_int_mono; lra).
    rewrite py_int_inject in H. lia.
Qed.

(** ** C8: weekend dampening *)

(** C8. For the same allocation and the same generator state, the sessions
    and leads emitted on a Saturday or Sunday (factor 0.85, truncated after
    the multiplication) are at most those emitted on a weekday (factor
    1.0), and the emitted purchases are the same. *)
Theorem C8_weekend_dampens (d_end d_week : Z) (a : gmap string Z) ch g :
  5 <= weekday d_end -> weekday d_week < 5 ->
  let p := default 0 (a !! ch) in
  let we := (channel_rows d_end (weekend_factor_of d_end) a ch g).1.1 in
  let wd := (channel_rows d_week (weekend_factor_of d_week) a ch g).1.1 in
  weekend_factor_of d_end = 0.85%Q /\ weekend_factor_of d_week = 1.0%Q /\
  sessions wd = Z.max (sessions_undampened p g) 0 /\
  leads wd = Z.max (leads_undampened p g) 0 /\
  sessions we = Z.max (py_int (inject_Z (sessions_undampened p g) * 0.85)) 0 /\
  leads we = Z.max (py_int (inject_Z (leads_undampened p g) * 0.85)) 0 /\
  sessions we <= sessions wd /\ leads we <= leads wd /\
  purchases we = purchases wd.
Proof.
  intros Hend Hweek. cbv zeta.
  assert (Ee : weekend_factor_of d_end = 0.85%Q).
  { unfold weekend_factor_of. destruct (Z.leb_spec 5 (weekday d_end));
      [reflexivity|lia]. }
  assert (Ew : weekend_factor_of d_week = 1.0%Q).
  { unfold weekend_factor_of. destruct (Z.leb_spec 5 (weekday d_week));
      [lia|reflexivity]. }
  rewrite !funnel_row_run, Ee, Ew. cbn [sessions leads purchases].
  rewrite !py_int_times_one.
  repeat split; try reflexivity; apply dampen_le.
Qed.

Lemma C8_weekend_dampens_witness :
  let we := (channel_rows 2 (weekend_factor_of 2) (allocate 25) "Email"
               Example.halves).1.1 in
  let wd := (channel_rows 4 (weekend_factor_of 4) (allocate 25) "Email"
               Example.halves).1.1 in
  weekday 2 = 5 /\ weekday 4 = 0 /\
  sessions we <= sessions wd /\ leads we <= leads wd /\
  purchases we = purchases wd.
Proof.
  intros we wd. split; [reflexivity|]. split; [reflexivity|].
  refine (proj2 (proj2 (proj2 (proj2 (proj2 (proj2
    (C8_weekend_dampens 2 4 (allocate 25) "Email" Example.halves _ _)))))));
    vm_compute; (discriminate || reflexivity).
Defined.

(** ** C10: a channel with no purchase *)

Lemma leads_undampened_zero (g : rng) : leads_undampened 0 g = 0.
Proof.
  unfold leads_undampened. cbv zeta.
  rewrite (Qceiling_comp _ 0); [reflexivity|]. unfold Qdiv. ring.
Qed.

Lemma sessions_undampened_zero (g : rng) : sessions_undampened 0 g = 0.
Proof.
  unfold sessions_undampened. cbv zeta. rewrite leads_undampened_zero.
  rewrite (Qceiling_comp _ 0); [reflexivity|]. unfold Qdiv. ring.
Qed.

Lemma spend_row_run d wf (a : gmap string Z) ch g :
  let p := default 0 (a !! ch) in
  spend (channel_rows d wf a ch g).1.2 =
    py_round2 (py_maxQ
      ((raw_spend ch (py_int (inject_Z (sessions_undampened p g) * wf))
          (after 4 g)).1 * wf) 0).
Proof. cbv zeta. rewrite channel_rows_run. reflexivity. Qed.

Lemma py_int_zero_times (wf : Q) : py_int (inject_Z 0 * wf) = 0.
Proof. apply py_int_zero. ring. Qed.

(** C10. When the purchases allocated to a (date, channel) pair are 0, the
    emitted leads and sessions are exactly 0, and the emitted spend is
    exactly 0.0 for every channel but Email; Email's spend is its draw from
    [20, 120] times the weekend factor, clamped and rounded, which is not
    zero when the draw is in range. *)
Theorem C10_zero_purchases (d : Z) (a : gmap string Z) (ch : string) (g : rng) :
  default 0 (a !! ch) = 0 ->
  let wf := weekend_factor_of d in
  let r := (channel_rows d wf a ch g).1 in
  purchases r.1 = 0 /\ leads r.1 = 0 /\ sessions r.1 = 0 /\
  (ch ≠ "Email"%string -> spend r.2 == 0) /\
  (ch = "Email"%string ->
     spend r.2 = py_round2 (py_maxQ ((20 + (120 - 20) * g 4%nat) * wf) 0) /\
     ((0 <= g 4%nat)%Q -> (g 4%nat < 1)%Q -> (0 < spend r.2)%Q)).
Proof.
  intros Hp. cbv zeta.
  rewrite funnel_row_run, Hp. cbn [fst purchases leads sessions].
  rewrite leads_undampened_zero, sessions_undampened_zero, py_int_zero_times.
  repeat (split; [reflexivity|]).
  rewrite spend_row_run, Hp.
  rewrite sessions_undampened_zero, py_int_zero_times, raw_spend_run.
  split.
  - intros Hne. apply py_round2_zero, py_maxQ_zero.
    destruct (is_paid ch); cbn [fst]; [ring|].
    apply String.eqb_neq in Hne. rewrite Hne. cbn [fst]. ring.
  - intros ->. change (is_paid "Email") with false.
    change (String.eqb "Email" "Email") with true. cbn [fst].
    change (after 4 g 0%nat) with (g 4%nat).
    split; [reflexivity|].
    intros H0 H1.
    destruct (weekend_factor_range d) as [Hw0 Hw1].
    set (u := g 4%nat) in *. set (wf := weekend_factor_of d) in *.
    assert (Hx : (17 <= (20 + (120 - 20) * u) * wf)%Q).
    { assert (Ha : (0 <= (20 + (120 - 20) * u) * (wf - 0.85))%Q)
        by (apply Qmult_le_0_compat; lra).
      lra. }
    rewrite py_maxQ_l by lra.
    destruct (py_round2_bounds ((20 + (120 - 20) * u) * wf)) as [_ Hhi]. lra.
Qed.

Lemma C10_zero_purchases_witness :
  let r := (channel_rows 3 (weekend_factor_of 3) (allocate 0) "Paid Search"
              Example.halves).1 in
  default 0 (allocate 0 !! "Paid Search"%string) = 0 /\
  purchases r.1 = 0 /\ leads r.1 = 0 /\ sessions r.1 = 0.
Proof.
  intros r. split; [reflexivity|].
  destruct (C10_zero_purchases 3 (allocate 0) "Paid Search" Example.halves)
    as (Hp & Hl & Hs & _); [reflexivity|]. auto.
Defined.

(** ** C1: spend of the paid channels *)

Lemma sessions_dampened_nonneg d t ch g :
  unit_draws g -> 0 <= t ->
  0 <= py_int (inject_Z (sessions_undampened (allocated t ch) g)
               * weekend_factor_of d).
Proof.
  intros Hg Ht. pose proof (allocated_nonneg t ch Ht) as Hp.
  destruct (undampened_order (allocated t ch) (g 0%nat) (g 1%nat) (g 2%nat)
              (g 3%nat) Hp (Hg _) (Hg _) (Hg _) (Hg _)) as [HL HS].
  destruct (weekend_factor_range d) as [Hw0 Hw1].
  destruct (dampened_order _ _ _ _ Hp HL HS Hw0 Hw1) as (_ & _ & H & _).
  exact H.
Qed.

(** C1, as the code has it. For a paid channel (Paid Search, Paid Social,
    Affiliate), with draws in range, the emitted spend is the sessions value
    emitted in the funnel row (the count after weekend dampening and
    truncation) times a cpc in [0.5, 2.5] times a factor in [0.6, 1.2],
    times the weekend factor, clamped at 0.0 and rounded to two places. On
    a weekday this is the specification's formula on the count before
    dampening; on a weekend the count has been dampened already and the
    factor enters a second time. *)
Theorem C1_paid_spend (d t : Z) (ch : string) (g : rng) :
  unit_draws g -> 0 <= t ->
  ch ∈ ["Paid Search"; "Paid Social"; "Affiliate"]%string ->
  let wf := weekend_factor_of d in
  let r := (channel_rows d wf (allocate t) ch g).1 in
  let before := sessions_undampened (allocated t ch) g in
  (0.5 <= cpc_of g)%Q /\ (cpc_of g <= 2.5)%Q /\
  (0.6 <= spend_factor_of g)%Q /\ (spend_factor_of g <= 1.2)%Q /\
  sessions r.1 = py_int (inject_Z before * wf) /\
  spend r.2 = spec_paid_spend (sessions r.1) (cpc_of g) (spend_factor_of g) wf /\
  (weekday d < 5 ->
   sessions r.1 = before /\
   spend r.2 = spec_paid_spend before (cpc_of g) (spend_factor_of g) wf).
Proof.
  intros Hg Ht Hch. cbv zeta.
  assert (Hpaid : is_paid ch = true) by (apply bool_decide_eq_true_2, Hch).
  destruct (uniform_range 0.5 2.5 (g 4%nat)) as [Hc0 Hc1];
    [lra|apply Hg..|].
  destruct (uniform_range 0.6 1.2 (g 5%nat)) as [Hf0 Hf1];
    [lra|apply Hg..|].
  pose proof (sessions_dampened_nonneg d t ch g Hg Ht) as Hs.
  assert (Hsess : sessions (channel_rows d (weekend_factor_of d) (allocate t) ch g).1.1
                  = py_int (inject_Z (sessions_undampened (allocated t ch) g)
                            * weekend_factor_of d)).
  { rewrite funnel_row_run. cbn [sessions]. fold (allocated t ch). lia. }
  assert (Hspend : spend (channel_rows d (weekend_factor_of d) (allocate t) ch g).1.2
                   = spec_paid_spend
                       (sessions (channel_rows d (weekend_factor_of d)
                                    (allocate t) ch g).1.1)
                       (cpc_of g) (spend_factor_of g) (weekend_factor_of d)).
  { rewrite Hsess, (paid_spend_run _ _ _ _ _ Hpaid). reflexivity. }
  repeat (split; [assumption|]).
  intros Hweek.
  assert (Ew : weekend_factor_of d = 1.0%Q).
  { unfold weekend_factor_of. destruct (Z.leb_spec 5 (weekday d));
      [lia|reflexivity]. }
  rewrite Hspend, Hsess, Ew, py_int_times_one. split; reflexivity.
Qed.

Lemma C1_paid_spend_witness :
  let g := Example.halves in
  let r := (channel_rows 2 (weekend_factor_of 2) (allocate 25) "Paid Search" g).1 in
  unit_draws g /\
  spend r.2 = spec_paid_spend (sessions r.1) (cpc_of g) (spend_factor_of g)
                (weekend_factor_of 2).
Proof.
  intros g r. split; [exact Example_unit_draws|].
  destruct (C1_paid_spend 2 25 "Paid Search" g) as (_ & _ & _ & _ & _ & H & _).
  - exact Example_unit_draws.
  - lia.
  - repeat constructor.
  - exact H.
Defined.

(** The specification's formula fails on a Saturday: 25 purchases, every
    sample one half. The count before dampening is 1323 and the row emits
    1124; the code's spend is 1124 * 1.5 * 0.9 * 0.85 = 1289.79, the
    specification's 1323 * 1.5 * 0.9 * 0.85 = 1518.14. *)
Lemma C1_counterexample :
  let g := Example.halves in
  let wf := weekend_factor_of 2 in
  let r := (channel_rows 2 wf (allocate 25) "Paid Search" g).1 in
  let before := sessions_undampened (allocated 25 "Paid Search") g in
  weekday 2 = 5 /\ before = 1323 /\ sessions r.1 = 1124 /\
  cpc_of g == 1.5 /\ spend_factor_of g == 0.9 /\
  spend r.2 == 1289.79 /\
  spec_paid_spend before (cpc_of g) (spend_factor_of g) wf == 1518.14 /\
  ~ spend r.2 == spec_paid_spend before (cpc_of g) (spend_factor_of g) wf.
Proof.
  vm_compute. repeat split; try reflexivity. discriminate.
Qed.

(** * Further properties of the code *)

(** ** The allocation loop (lines 63-73) *)

(** X1. For a day's total [t >= 0] the four rounded shares never exceed
    [t]: the clamp [max(0, remaining)] of the last channel is never active,
    Organic receives exactly the remainder, and the five allocations always
    sum to [t]. *)
Theorem X1_allocation_exact (t : Z) :
  0 <= t ->
  let first_four :=
    allocated t "Paid Search" + allocated t "Paid Social"
    + allocated t "Email" + allocated t "Affiliate" in
  first_four <= t /\
  allocated t "Organic" = t - first_four /\
  foldr Z.add 0 (allocated t <$> CHANNELS) = t.
Proof.
  intros Ht. cbv zeta.
  pose proof (remainder_nonneg t Ht) as Hr.
  pose proof (allocation_sum_exact t Ht) as Hsum.
  assert (E : forall ch : string, allocated t ch = default 0 (allocate t !! ch))
    by reflexivity.
  rewrite !E, allocate_eq. simplify_map_eq.
  repeat split; lia.
Qed.

Lemma X1_allocation_exact_witness :
  allocated 7 "Organic" = 1 /\ foldr Z.add 0 (allocated 7 <$> CHANNELS) = 7.
Proof.
  destruct (X1_allocation_exact 7) as (_ & H1 & H2); [lia|].
  split; [rewrite H1; reflexivity|exact H2].
Defined.

(** X2. Each of the first four allocations is within one half of its
    weight's share of [t], Organic's is within 2 of a quarter of [t], and
    no channel is allocated less than 0 or more than [t]. *)
Theorem X2_allocation_accuracy (t : Z) :
  0 <= t ->
  (forall ch : string,
     ch ∈ ["Paid Search"; "Paid Social"; "Email"; "Affiliate"]%string ->
     (inject_Z t * weight_of ch - (1 # 2) <= inject_Z (allocated t ch) /\
      inject_Z (allocated t ch) <= inject_Z t * weight_of ch + (1 # 2))%Q) /\
  (inject_Z t * 0.25 - 2 <= inject_Z (allocated t "Organic") /\
   inject_Z (allocated t "Organic") <= inject_Z t * 0.25 + 2)%Q /\
  (forall ch : string, 0 <= allocated t ch <= t).
Proof.
  intros Ht.
  assert (E : forall ch : string, allocated t ch = default 0 (allocate t !! ch))
    by reflexivity.
  pose proof (remainder_nonneg t Ht) as Hr.
  destruct (share_bounds t 0.28) as [A1 B1].
  destruct (share_bounds t 0.22) as [A2 B2].
  destruct (share_bounds t 0.15) as [A3 B3].
  destruct (share_bounds t 0.10) as [A4 B4].
  pose proof (share_nonneg t 0.28 Ht) as N1.
  pose proof (share_nonneg t 0.22 Ht) as N2.
  pose proof (share_nonneg t 0.15 Ht) as N3.
  pose proof (share_nonneg t 0.10 Ht) as N4.
  split; [|split].
  - intros ch Hch. rewrite E, allocate_eq.
    repeat (apply elem_of_cons in Hch as [->|Hch];
            [simplify_map_eq; cbn [default from_option id];
             change (weight_of "Paid Search") with 0.28%Q;
             change (weight_of "Paid Social") with 0.22%Q;
             change (weight_of "Email") with 0.15%Q;
             change (weight_of "Affiliate") with 0.10%Q;
             split; lra|]).
    apply elem_of_nil in Hch. contradiction.
  - rewrite E, allocate_eq. simplify_map_eq.
    rewrite Z.max_r by lia. unfold Z.sub.
    rewrite !inject_Z_plus, !inject_Z_opp. split; lra.
  - intros ch. split; [apply allocated_nonneg, Ht|].
    rewrite E, allocate_eq, !lookup_insert, lookup_empty.
    repeat case_decide; cbn [default from_option id];
      specialize (N1 ltac:(lra)); specialize (N2 ltac:(lra));
      specialize (N3 ltac:(lra)); specialize (N4 ltac:(lra)); lia.
Qed.

Lemma X2_allocation_accuracy_witness :
  0 <= allocated 100 "Organic" <= 100.
Proof. apply (X2_allocation_accuracy 100). lia. Defined.

(** X3. After the loop the dict [allocations] has exactly the five
    channels as keys, so [allocations.get(ch, 0)] takes its default only
    for a name that is not a channel, where it gives 0. *)
Theorem X3_allocation_keys (t : Z) :
  dom (allocate t) = list_to_set CHANNELS /\
  (forall ch : string, ch ∈ CHANNELS -> is_Some (allocate t !! ch)) /\
  (forall ch : string, ch ∉ CHANNELS -> allocated t ch = 0).
Proof.
  assert (Hdom : dom (allocate t) = list_to_set CHANNELS).
  { rewrite allocate_eq, !dom_insert_L, dom_empty_L.
    unfold CHANNELS. cbn [list_to_set]. set_solver. }
  split; [exact Hdom|]. split.
  - intros ch Hch. apply elem_of_dom. rewrite Hdom.
    apply elem_of_list_to_set, Hch.
  - intros ch Hch. unfold allocated.
    assert (Hnone : allocate t !! ch = None).
    { apply not_elem_of_dom. rewrite Hdom. rewrite elem_of_list_to_set. exact Hch. }
    rewrite Hnone. reflexivity.
Qed.

Lemma X3_allocation_keys_witness :
  is_Some (allocate 12 !! "Email"%string) /\ allocated 12 "Direct" = 0.
Proof.
  destruct (X3_allocation_keys 12) as (_ & Hin & Hout). split.
  - apply Hin. unfold CHANNELS. repeat constructor.
  - apply Hout. unfold CHANNELS. compute_done.
Defined.

(** ** How the loops use the generator *)

Lemma channel_rows_state d wf a ch g (n : nat) :
  (channel_rows d wf a ch g).2 n = g (draws_of ch + n)%nat.
Proof.
  rewrite channel_rows_run. cbn [snd]. rewrite raw_spend_run. unfold draws_of.
  destruct (is_paid ch); [reflexivity|].
  destruct (String.eqb ch "Email"); reflexivity.
Qed.

Lemma channel_rows_ext d wf a ch g g' :
  agree (draws_of ch) g g' ->
  (channel_rows d wf a ch g).1 = (channel_rows d wf a ch g').1.
Proof.
  unfold agree, draws_of. intros H.
  rewrite !channel_rows_run. cbn [fst]. rewrite !raw_spend_run.
  unfold after.
  destruct (is_paid ch); [|destruct (String.eqb ch "Email")]; cbn [fst Nat.add];
    rewrite <- ?(H 0%nat), <- ?(H 1%nat), <- ?(H 2%nat), <- ?(H 3%nat),
            <- ?(H 4%nat), <- ?(H 5%nat) by lia; reflexivity.
Qed.

Lemma agree_weaken (k k' : nat) g g' :
  (k' <= k)%nat -> agree k g g' -> agree k' g g'.
Proof. intros Hk H n Hn. apply H. lia. Qed.

Lemma channel_loop_state d wf a chs acc g (n : nat) :
  (for_each (channel_body d wf a) chs acc g).2 n = g (draws_of_all chs + n)%nat.
Proof.
  revert acc g n. induction chs as [|ch chs IH]; intros acc g n.
  - reflexivity.
  - rewrite for_each_cons, IH, channel_body_run. cbn [snd].
    rewrite channel_rows_state. unfold draws_of_all.
    cbn [fmap list_fmap foldr]. f_equal. lia.
Qed.

Lemma channel_loop_ext d wf a chs acc g g' :
  agree (draws_of_all chs) g g' ->
  (for_each (channel_body d wf a) chs acc g).1
  = (for_each (channel_body d wf a) chs acc g').1.
Proof.
  revert acc g g'. induction chs as [|ch chs IH]; intros acc g g' H.
  - reflexivity.
  - unfold draws_of_all in H. cbn [fmap list_fmap foldr] in H.
    rewrite !for_each_cons, !channel_body_run. cbn [fst snd].
    rewrite (channel_rows_ext d wf a ch g g')
      by (eapply agree_weaken; [|exact H]; lia).
    apply IH. intros n Hn. rewrite !channel_rows_state. apply H.
    fold (draws_of_all chs). lia.
Qed.

Lemma draws_per_day : draws_of_all CHANNELS = 27%nat.
Proof. reflexivity. Qed.

Lemma day_loop_state (pd : list (Z * Z)) acc g (n : nat) :
  (for_each day_body pd acc g).2 n = g (27 * length pd + n)%nat.
Proof.
  revert acc g n. induction pd as [|[d t] pd IH]; intros acc g n.
  - reflexivity.
  - rewrite for_each_cons, IH. unfold day_body.
    rewrite channel_loop_state, draws_per_day. cbn [length]. f_equal. lia.
Qed.

Lemma day_loop_ext (pd : list (Z * Z)) acc g g' :
  agree (27 * length pd) g g' ->
  (for_each day_body pd acc g).1 = (for_each day_body pd acc g').1.
Proof.
  revert acc g g'. induction pd as [|[d t] pd IH]; intros acc g g' H.
  - reflexivity.
  - rewrite !for_each_cons. cbn [length] in H.
    assert (Hday : (day_body acc (d, t) g).1 = (day_body acc (d, t) g').1).
    { unfold day_body. apply channel_loop_ext. rewrite draws_per_day.
      eapply agree_weaken; [|exact H]. lia. }
    rewrite Hday. apply IH. intros n Hn. unfold day_body.
    rewrite !channel_loop_state, draws_per_day. apply H. lia.
Qed.

(** X4. The loops take exactly 27 samples per day (six for each paid
    channel, five for Email, four for Organic): after [synthesize] the
    generator stands 27 samples per day further. *)
Theorem X4_samples_per_day (purchases_daily : list (Z * Z)) (g : rng) (n : nat) :
  draws_of <$> CHANNELS = [6; 6; 5; 6; 4]%nat /\
  (synthesize purchases_daily g).2 n = g (27 * length purchases_daily + n)%nat.
Proof. split; [reflexivity|]. apply day_loop_state. Qed.

(** X5. The rows depend on the generator only through its first
    [27 * days] samples: two generators that agree on them give the same
    two tables. *)
Theorem X5_rows_depend_on_prefix (purchases_daily : list (Z * Z)) (g g' : rng) :
  agree (27 * length purchases_daily) g g' ->
  (synthesize purchases_daily g).1 = (synthesize purchases_daily g').1.
Proof. apply day_loop_ext. Qed.

Lemma X5_rows_depend_on_prefix_witness :
  let g' : rng := fun n => if (n <? 27)%nat then (1 # 2)%Q else 0%Q in
  (synthesize [(2, 25)] Example.halves).1 = (synthesize [(2, 25)] g').1.
Proof.
  intros g'. apply X5_rows_depend_on_prefix.
  intros n Hn. unfold Example.halves, g'. cbn [length] in Hn.
  destruct (Nat.ltb_spec n 27); [reflexivity|lia].
Defined.

(** ** How the loops compose *)

Lemma for_each_app {A S : Type} (body : S -> A -> Rand S) (l1 l2 : list A) acc g :
  for_each body (l1 ++ l2) acc g
  = for_each body l2 (for_each body l1 acc g).1 (for_each body l1 acc g).2.
Proof.
  revert acc g. induction l1 as [|x l1 IH]; intros acc g.
  - reflexivity.
  - cbn [app]. rewrite !for_each_cons. apply IH.
Qed.

(** The rows a loop appends do not depend on the rows already there. *)
Lemma channel_loop_acc d wf a chs (acc : out_rows) g :
  (for_each (channel_body d wf a) chs acc g).1
  = (acc.1 ++ (for_each (channel_body d wf a) chs ([], []) g).1.1,
     acc.2 ++ (for_each (channel_body d wf a) chs ([], []) g).1.2).
Proof.
  revert acc g. induction chs as [|ch chs IH]; intros acc g.
  - cbn. rewrite !app_nil_r. destruct acc; reflexivity.
  - rewrite !for_each_cons, !channel_body_run. cbn [fst snd].
    rewrite IH. rewrite (IH ([] ++ _, [] ++ _)). cbn [fst snd app].
    rewrite <- !app_assoc. reflexivity.
Qed.

Lemma day_loop_acc (pd : list (Z * Z)) (acc : out_rows) g :
  (for_each day_body pd acc g).1
  = (acc.1 ++ (synthesize pd g).1.1, acc.2 ++ (synthesize pd g).1.2).
Proof.
  unfold synthesize. revert acc g. induction pd as [|[d t] pd IH]; intros acc g.
  - cbn. rewrite !app_nil_r. destruct acc; reflexivity.
  - rewrite !for_each_cons.
    assert (Hs : (day_body acc (d, t) g).2 = (day_body ([], []) (d, t) g).2).
    { unfold day_body. generalize CHANNELS. intros chs. revert acc g.
      induction chs as [|ch chs IHc]; intros acc g; [reflexivity|].
      rewrite !for_each_cons, !channel_body_run. cbn [fst snd].
      rewrite (IHc (acc.1 ++ _, acc.2 ++ _)).
      rewrite (IHc ([] ++ _, [] ++ _)). reflexivity. }
    assert (Ha : (day_body acc (d, t) g).1
                 = (acc.1 ++ (day_body ([], []) (d, t) g).1.1,
                    acc.2 ++ (day_body ([], []) (d, t) g).1.2)).
    { unfold day_body. apply channel_loop_acc. }
    rewrite (IH (day_body acc (d, t) g).1).
    rewrite (IH (day_body ([], []) (d, t) g).1).
    rewrite Hs, Ha. cbn [fst snd]. rewrite <- !app_assoc. reflexivity.
Qed.

(** X6. Synthesis composes over the days: the tables for [days1 ++ days2]
    are the tables for [days1] followed by the tables for [days2] built from
    the generator as the first run leaves it, 27 samples per day further. *)
Theorem X6_synthesize_app (days1 days2 : list (Z * Z)) (g : rng) :
  let g2 : rng := fun n => g (27 * length days1 + n)%nat in
  (synthesize (days1 ++ days2) g).1
  = ((synthesize days1 g).1.1 ++ (synthesize days2 g2).1.1,
     (synthesize days1 g).1.2 ++ (synthesize days2 g2).1.2).
Proof.
  cbv zeta. unfold synthesize at 1. rewrite for_each_app.
  fold (synthesize days1 g). rewrite day_loop_acc.
  assert (E : (synthesize days2 (synthesize days1 g).2).1
              = (synthesize days2 (fun n => g (27 * length days1 + n)%nat)).1).
  { apply day_loop_ext. intros n _. apply day_loop_state. }
  rewrite E. reflexivity.
Qed.

(** ** The purchases column *)

Lemma channel_loop_triples d wf (a : gmap string Z) chs g :
  funnel_triple <$> (for_each (channel_body d wf a) chs ([], []) g).1.1
  = (fun ch => (d, ch, Z.max (default 0 (a !! ch)) 0)) <$> chs.
Proof.
  revert g. induction chs as [|ch chs IH]; intros g; [reflexivity|].
  rewrite for_each_cons, channel_body_run, channel_loop_acc. cbn [fst snd app].
  rewrite fmap_cons, IH, funnel_row_run. reflexivity.
Qed.

Lemma synthesize_triples (pd : list (Z * Z)) g :
  funnel_triple <$> (synthesize pd g).1.1
  = flat_map (fun r : Z * Z =>
                (fun ch => (r.1, ch, Z.max (allocated r.2 ch) 0)) <$> CHANNELS) pd.
Proof.
  revert g. induction pd as [|[d t] pd IH]; intros g; [reflexivity|].
  unfold synthesize. rewrite for_each_cons, day_loop_acc. cbn [fst snd].
  rewrite fmap_app, IH. cbn [flat_map fst snd]. f_equal.
Qed.

(** X7. The purchases of every funnel row are the allocation of its day
    and channel, whatever the generator hands out; so for each day the five
    rows' purchases sum to the day's total, and the purchases column sums
    to the sum of the daily totals. *)
Theorem X7_purchases_column (purchases_daily : list (Z * Z)) (g : rng) :
  Forall (fun r : Z * Z => 0 <= r.2) purchases_daily ->
  funnel_triple <$> (synthesize purchases_daily g).1.1
  = flat_map (fun r : Z * Z => (fun ch => (r.1, ch, allocated r.2 ch)) <$> CHANNELS)
             purchases_daily /\
  foldr Z.add 0 (purchases <$> (synthesize purchases_daily g).1.1)
  = foldr Z.add 0 purchases_daily.*2.
Proof.
  intros Hpd.
  assert (Htr : funnel_triple <$> (synthesize purchases_daily g).1.1
    = flat_map (fun r : Z * Z => (fun ch => (r.1, ch, allocated r.2 ch)) <$> CHANNELS)
               purchases_daily).
  { rewrite synthesize_triples. clear g.
    induction Hpd as [|[d t] pd Ht _ IH]; [reflexivity|].
    cbn [flat_map]. rewrite IH. f_equal.
    apply list_fmap_ext. intros _ ch _. cbn [fst snd] in *.
    rewrite Z.max_l by (apply allocated_nonneg, Ht). reflexivity. }
  split; [exact Htr|].
  assert (Hcol : purchases <$> (synthesize purchases_daily g).1.1
                 = snd <$> (funnel_triple <$> (synthesize purchases_daily g).1.1)).
  { rewrite <- list_fmap_compose. reflexivity. }
  rewrite Hcol, Htr. clear Hcol Htr g.
  induction Hpd as [|[d t] pd Ht _ IH]; [reflexivity|].
  cbn [flat_map]. rewrite fmap_app, foldr_app, IH. cbn [fst snd] in *.
  pose proof (allocation_sum_exact t Ht) as Hsum.
  cbn [CHANNELS fmap list_fmap foldr snd] in *. lia.
Qed.

Lemma X7_purchases_column_witness :
  foldr Z.add 0
    (purchases <$> (synthesize [(2, 25); (3, 0); (4, 7)] Example.halves).1.1)
  = 32.
Proof.
  refine (proj2 (X7_purchases_column [(2, 25); (3, 0); (4, 7)] Example.halves _)).
  repeat constructor; cbn; lia.
Defined.

(** ** The run as a whole *)

(** Either the input is accepted, or [main] raises and leaves the
    filesystem and the generator as they were. *)
Lemma main_cases to_datetime (fs : filesystem) g :
  (exists f, fs !! ORDERS_FILE = Some f /\
     "order_purchase_timestamp"%string ∈ columns (read_csv f) /\
     "order_id"%string ∈ columns (read_csv f) /\
     dropna to_datetime (rows (read_csv f)) ≠ []) \/
  (exists e, main to_datetime fs g = (Raise e, fs, g)).
Proof.
  unfold main. destruct (fs !! ORDERS_FILE) as [f|] eqn:Hf;
    [|right; eexists; reflexivity].
  destruct (decide ("order_purchase_timestamp"%string ∈ columns (read_csv f)))
    as [Hts|Hts];
    [rewrite (bool_decide_eq_true_2 _ Hts)
    |rewrite (bool_decide_eq_false_2 _ Hts); right; eexists; reflexivity].
  cbn [negb].
  destruct (dropna to_datetime (rows (read_csv f))) as [|o kept] eqn:Hk;
    [right; eexists; reflexivity|].
  cbn [fmap list_fmap series_min series_max].
  destruct (decide ("order_id"%string ∈ columns (read_csv f))) as [Hid|Hid];
    [|rewrite (bool_decide_eq_false_2 _ Hid); right; eexists; reflexivity].
  left. exists f. repeat split; auto. congruence.
Qed.

(** X8. A run is all or nothing. It succeeds exactly when the orders file
    exists, has the columns [order_purchase_timestamp] and [order_id], and
    at least one timestamp parses; whenever it raises, no file has been
    written or changed and no sample has been drawn. *)
Theorem X8_all_or_nothing to_datetime (fs : filesystem) g :
  ((exists s, (main to_datetime fs g).1.1 = Ok s) <->
   (exists f, fs !! ORDERS_FILE = Some f /\
      "order_purchase_timestamp"%string ∈ columns (read_csv f) /\
      "order_id"%string ∈ columns (read_csv f) /\
      dropna to_datetime (rows (read_csv f)) ≠ [])) /\
  (forall e, (main to_datetime fs g).1.1 = Raise e ->
     (main to_datetime fs g).1.2 = fs /\ (main to_datetime fs g).2 = g).
Proof.
  destruct (main_cases to_datetime fs g) as [(f & Hf & Hts & Hid & Hne)|[e He]].
  - destruct (main_success to_datetime fs g f Hf Hts Hid Hne)
      as (a & b & _ & _ & _ & Hmain). cbv zeta in Hmain.
    split.
    + split; [intros _; exists f; auto|].
      intros _. rewrite Hmain. eexists. reflexivity.
    + intros e. rewrite Hmain. discriminate.
  - rewrite He. cbn [fst snd]. split.
    + split; [intros [s Hs]; discriminate|].
      intros (f & Hf & Hts & Hid & Hne).
      destruct (main_success to_datetime fs g f Hf Hts Hid Hne)
        as (a & b & _ & _ & _ & Hmain). cbv zeta in Hmain.
      rewrite Hmain in He. discriminate.
    + auto.
Qed.

Lemma X8_all_or_nothing_witness :
  let fs : filesystem :=
    {[ ORDERS_FILE := OrdersCsv (Table (columns Example.orders)
                                   [OrderRow (Some "b"%string) (Some "n/a"%string)]);
       OUT_FUNNEL := FunnelCsv [] ]} in
  (main Example.to_datetime fs Example.halves).1.1
    = Raise (PandasError "date_range") /\
  (main Example.to_datetime fs Example.halves).1.2 = fs.
Proof.
  intros fs. split; [reflexivity|].
  apply (proj2 (X8_all_or_nothing Example.to_datetime fs Example.halves)
           (PandasError "date_range")).
  reflexivity.
Defined.

(** X9. A run touches only its two output paths: every other file,
    the orders file among them, is as it was. *)
Theorem X9_other_files_untouched to_datetime (fs : filesystem) g (path : string) :
  path ≠ OUT_FUNNEL -> path ≠ OUT_SPEND ->
  (main to_datetime fs g).1.2 !! path = fs !! path.
Proof.
  intros Hf Hs.
  destruct (main_cases to_datetime fs g) as [(f & H1 & H2 & H3 & H4)|[e He]].
  - destruct (main_success to_datetime fs g f H1 H2 H3 H4)
      as (a & b & _ & _ & _ & Hmain). cbv zeta in Hmain.
    rewrite Hmain. cbn [fst snd]. unfold filesystem in *.
    rewrite !lookup_insert_ne by congruence. reflexivity.
  - rewrite He. reflexivity.
Qed.

Lemma X9_other_files_untouched_witness :
  (main Example.to_datetime Example.fs Example.halves).1.2 !! ORDERS_FILE
  = Some (OrdersCsv Example.orders).
Proof.
  rewrite (X9_other_files_untouched Example.to_datetime Example.fs
             Example.halves ORDERS_FILE); [reflexivity|..];
    vm_compute; discriminate.
Defined.

(** X10. Running again on the filesystem a run leaves, from the same
    generator state, gives the same result and the same filesystem: the
    outputs are overwritten by equal tables and never feed back into the
    input. *)
Theorem X10_rerun_same to_datetime (fs : filesystem) g :
  main to_datetime (main to_datetime fs g).1.2 g = main to_datetime fs g.
Proof.
  destruct (main_cases to_datetime fs g) as [(f & H1 & H2 & H3 & H4)|[e He]].
  - destruct (main_success to_datetime fs g f H1 H2 H3 H4)
      as (a & b & Ha & Hb & _ & Hmain). cbv zeta in Hmain.
    rewrite Hmain. cbn [fst snd].
    set (out := synthesize _ g) in *.
    set (fs' := <[OUT_SPEND := SpendCsv out.1.2]>
                  (<[OUT_FUNNEL := FunnelCsv out.1.1]> fs)).
    assert (Hf' : fs' !! ORDERS_FILE = Some f).
    { subst fs'. unfold filesystem in *.
      rewrite !lookup_insert_ne by (vm_compute; discriminate). exact H1. }
    destruct (main_success to_datetime fs' g f Hf' H2 H3 H4)
      as (a' & b' & Ha' & Hb' & _ & Hmain'). cbv zeta in Hmain'.
    rewrite Hmain'. fold out.
    assert (a' = a) by congruence. assert (b' = b) by congruence. subst a' b'.
    fold out. f_equal. f_equal.
    subst fs'. unfold filesystem in *. apply map_eq. intros i.
    rewrite !lookup_insert. repeat case_decide; reflexivity.
  - rewrite He. cbn [fst snd]. exact He.
Qed.

(** ** More on rounding *)

Lemma py_round_comp (x y : Q) : x == y -> py_round x = py_round y.
Proof.
  intros H. unfold py_round. rewrite (Qfloor_comp x y H).
  assert (E : (x - inject_Z (Qfloor y) ?= 1 # 2)%Q
              = (y - inject_Z (Qfloor y) ?= 1 # 2)%Q).
  { apply Qcompare_comp; [rewrite H|]; reflexivity. }
  rewrite E. reflexivity.
Qed.

(** Rounding to the nearest integer is monotone. *)
Lemma py_round_mono (x y : Q) : (x <= y)%Q -> py_round x <= py_round y.
Proof.
  intros Hxy. destruct (Z_lt_le_dec (py_round y) (py_round x)) as [Hlt|]; [|lia].
  destruct (py_round_bounds x) as [Hx _]. destruct (py_round_bounds y) as [_ Hy].
  assert (H1 : (inject_Z (py_round y + 1) <= inject_Z (py_round x))%Q)
    by (rewrite <- Zle_Qle; lia).
  rewrite inject_Z_plus in H1. change (inject_Z 1) with 1%Q in H1.
  assert (E : x == y) by lra.
  rewrite (py_round_comp x y E) in Hlt. lia.
Qed.

Lemma py_round_inject (z : Z) : py_round (inject_Z z) = z.
Proof.
  destruct (py_round_bounds (inject_Z z)) as [Hlo Hhi].
  assert (H1 : (inject_Z (py_round (inject_Z z)) < inject_Z (z + 1))%Q).
  { rewrite inject_Z_plus. change (inject_Z 1) with 1%Q. lra. }
  assert (H2 : (inject_Z z < inject_Z (py_round (inject_Z z) + 1))%Q).
  { rewrite inject_Z_plus. change (inject_Z 1) with 1%Q. lra. }
  rewrite <- Zlt_Qlt in H1, H2. lia.
Qed.

Lemma py_round2_mono (x y : Q) : (x <= y)%Q -> (py_round2 x <= py_round2 y)%Q.
Proof.
  intros Hxy. unfold py_round2, Qle. cbn.
  apply Z.mul_le_mono_nonneg_r; [lia|]. apply py_round_mono. lra.
Qed.

(** A whole number is already rounded to two places. *)
Lemma py_round2_inject (z : Z) : py_round2 (inject_Z z) == inject_Z z.
Proof.
  unfold py_round2.
  rewrite (py_round_comp _ (inject_Z (z * 100)))
    by (rewrite inject_Z_mult; reflexivity).
  rewrite py_round_inject. unfold Qeq. cbn. lia.
Qed.




(** ** Sizes of the funnel and of the spend *)






(** X13. With draws in range and a non-negative daily total, the spend of
    a paid channel is at most 3 times the sessions its funnel row emits,
    and at least 0.255 times them less half a cent. *)
Theorem X13_paid_spend_bounds (d t : Z) (ch : string) (g : rng) :
  unit_draws g -> 0 <= t ->
  ch ∈ ["Paid Search"; "Paid Social"; "Affiliate"]%string ->
  let r := (channel_rows d (weekend_factor_of d) (allocate t) ch g).1 in
  (0.255 * inject_Z (sessions r.1) - 0.005 <= spend r.2)%Q /\
  (spend r.2 <= 3 * inject_Z (sessions r.1))%Q.
Proof.
  intros Hg Ht Hch. cbv zeta.
  assert (Hpaid : is_paid ch = true) by (apply bool_decide_eq_true_2, Hch).
  pose proof (sessions_dampened_nonneg d t ch g Hg Ht) as Hs.
  rewrite (paid_spend_run _ _ _ _ _ Hpaid), funnel_row_run.
  cbn [fst snd sessions]. fold (allocated t ch). rewrite Z.max_l by lia.
  set (s := py_int _) in *.
  destruct (uniform_range 0.5 2.5 (g 4%nat)) as [Hc0 Hc1]; [lra|apply Hg..|].
  destruct (uniform_range 0.6 1.2 (g 5%nat)) as [Hf0 Hf1]; [lra|apply Hg..|].
  fold (cpc_of g) in Hc0, Hc1. fold (spend_factor_of g) in Hf0, Hf1.
  destruct (weekend_factor_range d) as [Hw0 Hw1].
  set (cpc := cpc_of g) in *. set (f := spend_factor_of g) in *.
  set (wf := weekend_factor_of d) in *.
  assert (Hs' := inject_Z_nonneg s Hs).
  assert (A1 : (0 <= inject_Z s * (cpc - 0.5))%Q) by (apply Qmult_le_0_compat; lra).
  assert (A2 : (0 <= inject_Z s * (2.5 - cpc))%Q) by (apply Qmult_le_0_compat; lra).
  assert (B1 : (0 <= inject_Z s * cpc * (f - 0.6))%Q)
    by (apply Qmult_le_0_compat; lra).
  assert (B2 : (0 <= inject_Z s * cpc * (1.2 - f))%Q)
    by (apply Qmult_le_0_compat; lra).
  assert (C1 : (0 <= inject_Z s * cpc * f * (wf - 0.85))%Q)
    by (apply Qmult_le_0_compat; lra).
  assert (C2 : (0 <= inject_Z s * cpc * f * (1 - wf))%Q)
    by (apply Qmult_le_0_compat; lra).
  set (v := (inject_Z s * cpc * f * wf)%Q) in *.
  assert (Hv0 : (0.255 * inject_Z s <= v)%Q) by (unfold v; lra).
  assert (Hv1 : (v <= 3 * inject_Z s)%Q) by (unfold v; lra).
  rewrite py_maxQ_l by lra. split.
  - destruct (py_round2_bounds v) as [_ Hhi]. lra.
  - assert (E : py_round2 (inject_Z (3 * s)) == 3 * inject_Z s).
    { rewrite py_round2_inject, inject_Z_mult. reflexivity. }
    assert (Hv1' : (v <= inject_Z (3 * s))%Q)
      by (rewrite inject_Z_mult; change (inject_Z 3) with 3%Q; exact Hv1).
    pose proof (py_round2_mono _ _ Hv1') as M. lra.
Qed.

Lemma X13_paid_spend_bounds_witness :
  let r := (channel_rows 2 (weekend_factor_of 2) (allocate 25) "Affiliate"
              Example.halves).1 in
  (spend r.2 <= 3 * inject_Z (sessions r.1))%Q.
Proof.
  intros r.
  apply (X13_paid_spend_bounds 2 25 "Affiliate" Example.halves).
  - exact Example_unit_draws.
  - lia.
  - repeat constructor.
Defined.

(** ** The orders table as a bag of rows *)

Lemma foldl_min_spec (l : list Z) (x : Z) :
  foldl Z.min x l ∈ x :: l /\ (forall y, y ∈ x :: l -> foldl Z.min x l <= y).
Proof.
  revert x. induction l as [|z l IH]; intros x; cbn [foldl].
  - split; [left|]. intros y Hy. apply list_elem_of_singleton in Hy. lia.
  - destruct (IH (Z.min x z)) as [Hin Hlb]. split.
    + apply elem_of_cons in Hin as [Hin|Hin]; [|right; right; exact Hin].
      rewrite Hin. destruct (Z.min_spec x z) as [[_ ->]|[_ ->]];
        [left|right; left].
    + intros y Hy.
      assert (Hm : foldl Z.min (Z.min x z) l <= Z.min x z) by (apply Hlb; left).
      apply elem_of_cons in Hy as [->|Hy]; [lia|].
      apply elem_of_cons in Hy as [->|Hy]; [lia|].
      apply Hlb. right. exact Hy.
Qed.

Lemma foldl_max_spec (l : list Z) (x : Z) :
  foldl Z.max x l ∈ x :: l /\ (forall y, y ∈ x :: l -> y <= foldl Z.max x l).
Proof.
  revert x. induction l as [|z l IH]; intros x; cbn [foldl].
  - split; [left|]. intros y Hy. apply list_elem_of_singleton in Hy. lia.
  - destruct (IH (Z.max x z)) as [Hin Hub]. split.
    + apply elem_of_cons in Hin as [Hin|Hin]; [|right; right; exact Hin].
      rewrite Hin. destruct (Z.max_spec x z) as [[_ ->]|[_ ->]];
        [right; left|left].
    + intros y Hy.
      assert (Hm : Z.max x z <= foldl Z.max (Z.max x z) l) by (apply Hub; left).
      apply elem_of_cons in Hy as [->|Hy]; [lia|].
      apply elem_of_cons in Hy as [->|Hy]; [lia|].
      apply Hub. right. exact Hy.
Qed.

(** [min()] is the least element of the column, [max()] the greatest. *)
Lemma series_min_spec (l : list Z) (m : Z) :
  series_min l = Some m <-> m ∈ l /\ (forall y, y ∈ l -> m <= y).
Proof.
  destruct l as [|x l]; cbn [series_min].
  - split; [discriminate|]. intros [H _]. apply elem_of_nil in H. contradiction.
  - destruct (foldl_min_spec l x) as [Hin Hlb]. split.
    + intros [= <-]. auto.
    + intros [Hm Hmin]. f_equal.
      pose proof (Hlb m Hm). pose proof (Hmin _ Hin). lia.
Qed.

Lemma series_max_spec (l : list Z) (m : Z) :
  series_max l = Some m <-> m ∈ l /\ (forall y, y ∈ l -> y <= m).
Proof.
  destruct l as [|x l]; cbn [series_max].
  - split; [discriminate|]. intros [H _]. apply elem_of_nil in H. contradiction.
  - destruct (foldl_max_spec l x) as [Hin Hub]. split.
    + intros [= <-]. auto.
    + intros [Hm Hmax]. f_equal.
      pose proof (Hub m Hm). pose proof (Hmax _ Hin). lia.
Qed.

Lemma series_min_same_elements (l l' : list Z) :
  (forall x, x ∈ l <-> x ∈ l') -> series_min l = series_min l'.
Proof.
  intros Hs. destruct (series_min l) as [m|] eqn:E.
  - symmetry. apply series_min_spec. apply series_min_spec in E as [Hin Hlb].
    split; [apply Hs, Hin|]. intros y Hy. apply Hlb, Hs, Hy.
  - destruct l; [|discriminate]. destruct l' as [|y l']; [reflexivity|].
    exfalso. eapply elem_of_nil, Hs. left.
Qed.

Lemma series_max_same_elements (l l' : list Z) :
  (forall x, x ∈ l <-> x ∈ l') -> series_max l = series_max l'.
Proof.
  intros Hs. destruct (series_max l) as [m|] eqn:E.
  - symmetry. apply series_max_spec. apply series_max_spec in E as [Hin Hub].
    split; [apply Hs, Hin|]. intros y Hy. apply Hub, Hs, Hy.
  - destruct l; [|discriminate]. destruct l' as [|y l']; [reflexivity|].
    exfalso. eapply elem_of_nil, Hs. left.
Qed.

Lemma remove_dups_length_same_elements {A : Type} `{EqDecision A} (l l' : list A) :
  (forall x, x ∈ l <-> x ∈ l') -> length (remove_dups l) = length (remove_dups l').
Proof.
  intros Hs. apply Permutation_length, NoDup_Permutation.
  - apply NoDup_remove_dups.
  - apply NoDup_remove_dups.
  - intros x. rewrite !elem_of_remove_dups. apply Hs.
Qed.

Lemma nunique_on_same_elements (orders orders' : list (option string * Z)) (d : Z) :
  (forall o, o ∈ orders <-> o ∈ orders') ->
  nunique_on orders d = nunique_on orders' d.
Proof.
  intros Hs. unfold nunique_on. f_equal. apply remove_dups_length_same_elements.
  intros x. rewrite !list_elem_of_omap.
  split; intros (o & Ho & Hx); exists o; split; try exact Hx;
    apply list_elem_of_filter; apply list_elem_of_filter in Ho as [Hd Ho];
    (split; [exact Hd|apply Hs, Ho]).
Qed.

(** [main] reads the kept orders only through the least day, the greatest
    day and the daily counts. *)
Lemma main_kept_ext to_datetime (fs : filesystem) g cols rs rs' :
  let days l := (fun o : option string * Z => day_of o.2) <$> dropna to_datetime l in
  series_min (days rs) = series_min (days rs') ->
  series_max (days rs) = series_max (days rs') ->
  (forall d, nunique_on (dropna to_datetime rs) d
             = nunique_on (dropna to_datetime rs') d) ->
  let run rows := main to_datetime
                    (<[ORDERS_FILE := OrdersCsv (Table cols rows)]> fs) g in
  (run rs).1.1 = (run rs').1.1 /\
  (run rs).1.2 !! OUT_FUNNEL = (run rs').1.2 !! OUT_FUNNEL /\
  (run rs).1.2 !! OUT_SPEND = (run rs').1.2 !! OUT_SPEND /\
  (run rs).2 = (run rs').2.
Proof.
  intros days Hmin Hmax Hn run. subst run days. cbv beta in *.
  unfold main, filesystem in *.
  rewrite !lookup_insert_eq. cbn [read_csv columns rows]. rewrite Hmin, Hmax.
  assert (Hpd : forall dates,
            purchases_daily_of (dropna to_datetime rs) dates
            = purchases_daily_of (dropna to_datetime rs') dates).
  { intros dates. unfold purchases_daily_of. apply list_fmap_ext.
    intros _ d _. rewrite Hn. reflexivity. }
  assert (Hne : OUT_SPEND ≠ OUT_FUNNEL) by (vm_compute; discriminate).
  assert (Hne1 : ORDERS_FILE ≠ OUT_FUNNEL) by (vm_compute; discriminate).
  assert (Hne2 : ORDERS_FILE ≠ OUT_SPEND) by (vm_compute; discriminate).
  clear Hmin Hmax.
  repeat match goal with
  | |- context [if ?b then _ else _] => destruct b
  | |- context [match ?o with Some _ => _ | None => _ end] => destruct o
  end; rewrite ?Hpd;
  repeat match goal with
  | |- context [let '(_, _) := ?p in _] => destruct p as [[? ?] ?]
  end; cbn [fst snd];
  rewrite ?lookup_insert_eq, ?(lookup_insert_ne _ _ _ _ Hne), ?lookup_insert_eq,
    ?(lookup_insert_ne _ _ _ _ Hne1), ?(lookup_insert_ne _ _ _ _ Hne2); auto.
Qed.

(** X15. On an accepted run the reported date range is tight: [min_date]
    and [max_date] are each the day of some order whose timestamp parses,
    and the day of every such order lies between them. *)
Theorem X15_date_range_tight to_datetime (fs : filesystem) g f :
  fs !! ORDERS_FILE = Some f ->
  "order_purchase_timestamp"%string ∈ columns (read_csv f) ->
  "order_id"%string ∈ columns (read_csv f) ->
  dropna to_datetime (rows (read_csv f)) ≠ [] ->
  let days := (fun o : option string * Z => day_of o.2)
                <$> dropna to_datetime (rows (read_csv f)) in
  exists s,
    (main to_datetime fs g).1.1 = Ok s /\
    min_date s ∈ days /\ max_date s ∈ days /\
    (forall d, d ∈ days -> min_date s <= d <= max_date s).
Proof.
  intros Hf Hts Hid Hne days.
  destruct (main_success to_datetime fs g f Hf Hts Hid Hne)
    as (a & b & Ha & Hb & _ & Hmain). cbv zeta in Hmain.
  rewrite Hmain. cbn [fst snd].
  apply series_min_spec in Ha as [Hain Halb].
  apply series_max_spec in Hb as [Hbin Hbub].
  eexists. split; [reflexivity|]. cbn [min_date max_date].
  split; [exact Hain|]. split; [exact Hbin|].
  intros d Hd. split; [apply Halb, Hd|apply Hbub, Hd].
Qed.

Lemma X15_date_range_tight_witness :
  exists s,
    (main Example.to_datetime Example.fs Example.halves).1.1 = Ok s /\
    min_date s = 2 /\ max_date s = 4.
Proof.
  destruct (X15_date_range_tight Example.to_datetime Example.fs Example.halves
              (OrdersCsv Example.orders)) as (s & Hs & _).
  - reflexivity.
  - cbn. set_solver.
  - cbn. set_solver.
  - vm_compute. discriminate.
  - exists s. split; [exact Hs|].
    assert (E : Ok s = Ok (Summary 15 15 2 4)) by (rewrite <- Hs; reflexivity).
    injection E as ->. split; reflexivity.
Defined.

(** ** Timestamps matter only through their day *)

Lemma nunique_on_keys (orders : list (option string * Z)) (d : Z) :
  nunique_on orders d
  = Z.of_nat (length (remove_dups
      (omap fst (filter (fun k : option string * Z => k.2 = d)
                        (order_key <$> orders))))).
Proof.
  unfold nunique_on. do 3 f_equal.
  induction orders as [|o orders IH]; [reflexivity|].
  rewrite fmap_cons, !filter_cons.
  change (order_key o) with (fst o, day_of (snd o)). cbn [fst snd].
  destruct (decide (day_of o.2 = d)); cbn [omap list_omap fst]; rewrite IH;
    reflexivity.
Qed.

Lemma kept_keys_Forall2 (l l' : list (option string * option Z)) :
  Forall2 (fun o o' => order_key <$> keep_row o = order_key <$> keep_row o') l l' ->
  order_key <$> omap keep_row l = order_key <$> omap keep_row l'.
Proof.
  intros H. induction H as [|o o' l l' Ho _ IH]; [reflexivity|].
  cbn [omap list_omap].
  destruct (keep_row o) as [k|], (keep_row o') as [k'|];
    try discriminate; [|exact IH].
  change (Some (order_key k) = Some (order_key k')) in Ho.
  rewrite !fmap_cons. f_equal; [congruence|exact IH].
Qed.

(** X16. A run depends on the timestamps only through the calendar day
    they fall on: two tables with the same columns whose rows carry, row
    by row, the same [order_id] and timestamps that parse to the same day
    (or both fail to parse) give the same result, the same two output
    tables and leave the generator in the same state. *)
Theorem X16_time_of_day_irrelevant to_datetime (fs : filesystem) g cols
    (rs rs' : list order_row) :
  Forall2 (fun o o' => order_key <$> keep_row o = order_key <$> keep_row o')
          (coerce_timestamps to_datetime rs)
          (coerce_timestamps to_datetime rs') ->
  let run rows := main to_datetime
                    (<[ORDERS_FILE := OrdersCsv (Table cols rows)]> fs) g in
  (run rs).1.1 = (run rs').1.1 /\
  (run rs).1.2 !! OUT_FUNNEL = (run rs').1.2 !! OUT_FUNNEL /\
  (run rs).1.2 !! OUT_SPEND = (run rs').1.2 !! OUT_SPEND /\
  (run rs).2 = (run rs').2.
Proof.
  intros Hrows.
  assert (Hk : order_key <$> dropna to_datetime rs
               = order_key <$> dropna to_datetime rs')
    by (apply kept_keys_Forall2, Hrows).
  assert (Hd : forall l : list (option string * Z),
            (fun o : option string * Z => day_of o.2) <$> l
            = snd <$> (order_key <$> l)).
  { intros l. rewrite <- list_fmap_compose. reflexivity. }
  apply main_kept_ext.
  - rewrite !Hd, Hk. reflexivity.
  - rewrite !Hd, Hk. reflexivity.
  - intros d. rewrite !nunique_on_keys, Hk. reflexivity.
Qed.

Lemma X16_time_of_day_irrelevant_witness :
  let cell (s : string) : option Z :=
    (fun n => n * (ns_per_day / 2)) <$> Example.digits s 0 in
  let to_dt (col : list (option string)) : list (option Z) :=
    (fun c => c ≫= cell) <$> col in
  let run rows := main to_dt
                    (<[ORDERS_FILE := OrdersCsv (Table (columns Example.orders) rows)]> ∅)
                    Example.halves in
  let morning := [OrderRow (Some "a"%string) (Some "4"%string)] in
  let noon := [OrderRow (Some "a"%string) (Some "5"%string)] in
  cell "4" ≠ cell "5" /\ (run morning).1.1 = (run noon).1.1.
Proof.
  intros cell to_dt run morning noon. split; [vm_compute; discriminate|].
  refine (proj1 (X16_time_of_day_irrelevant to_dt ∅ Example.halves
                   (columns Example.orders) morning noon _)).
  repeat constructor.
Defined.

(** ** Nothing is lost in the channel split *)

Lemma purchases_total (pd : list (Z * Z)) (g : rng) :
  Forall (fun r : Z * Z => 0 <= r.2) pd ->
  foldr Z.add 0 (purchases <$> (synthesize pd g).1.1) = foldr Z.add 0 pd.*2.
Proof.
  intros Hpd.
  assert (Hcol : purchases <$> (synthesize pd g).1.1
                 = snd <$> (funnel_triple <$> (synthesize pd g).1.1)).
  { rewrite <- list_fmap_compose. reflexivity. }
  rewrite Hcol, synthesize_triples. clear Hcol g.
  induction Hpd as [|[d t] pd Ht _ IH]; [reflexivity|].
  cbn [flat_map]. rewrite fmap_app, foldr_app, IH. cbn [fst snd] in *.
  pose proof (allocation_sum_exact t Ht) as Hsum.
  pose proof (allocated_nonneg t "Paid Search" Ht).
  pose proof (allocated_nonneg t "Paid Social" Ht).
  pose proof (allocated_nonneg t "Email" Ht).
  pose proof (allocated_nonneg t "Affiliate" Ht).
  pose proof (allocated_nonneg t "Organic" Ht).
  cbn [CHANNELS fmap list_fmap foldr snd] in *. lia.
Qed.

(** X17. On an accepted run the purchases column of the funnel table sums
    to the number of distinct order ids per day, summed over the days of
    the range: the split over the channels loses and invents nothing. *)
Theorem X17_purchases_conserved to_datetime (fs : filesystem) g f :
  fs !! ORDERS_FILE = Some f ->
  "order_purchase_timestamp"%string ∈ columns (read_csv f) ->
  "order_id"%string ∈ columns (read_csv f) ->
  dropna to_datetime (rows (read_csv f)) ≠ [] ->
  exists s fr,
    (main to_datetime fs g).1.1 = Ok s /\
    (main to_datetime fs g).1.2 !! OUT_FUNNEL = Some (FunnelCsv fr) /\
    foldr Z.add 0 (purchases <$> fr)
    = foldr Z.add 0
        (nunique_on (dropna to_datetime (rows (read_csv f)))
           <$> date_range (min_date s) (max_date s)).
Proof.
  intros Hf Hts Hid Hne.
  destruct (main_success to_datetime fs g f Hf Hts Hid Hne)
    as (a & b & _ & _ & _ & Hmain). cbv zeta in Hmain.
  rewrite Hmain. cbn [fst snd]. unfold filesystem in *.
  eexists _, _. split; [reflexivity|].
  split; [rewrite lookup_insert_ne by (vm_compute; discriminate);
          apply lookup_insert_eq|].
  cbn [min_date max_date].
  rewrite purchases_total by apply purchases_daily_nonneg.
  unfold purchases_daily_of. rewrite <- list_fmap_compose. reflexivity.
Qed.

Lemma X17_purchases_conserved_witness :
  exists fr,
    (main Example.to_datetime Example.fs Example.halves).1.2 !! OUT_FUNNEL
      = Some (FunnelCsv fr) /\
    foldr Z.add 0 (purchases <$> fr) = 2.
Proof.
  destruct (X17_purchases_conserved Example.to_datetime Example.fs
              Example.halves (OrdersCsv Example.orders))
    as (s & fr & Hs & Hfr & Hsum).
  - reflexivity.
  - cbn. set_solver.
  - cbn. set_solver.
  - vm_compute. discriminate.
  - exists fr. split; [exact Hfr|]. rewrite Hsum.
    assert (E : Ok s = Ok (Summary 15 15 2 4)) by (rewrite <- Hs; reflexivity).
    injection E as ->. reflexivity.
Defined.

(** ** C7: rows whose timestamp does not parse *)

(** The orders [dropna] keeps are the rows whose parsed timestamp is not
    NaT, each with its [order_id] and that timestamp. *)
Lemma elem_of_dropna to_datetime (rs : list order_row) (o : option string * Z) :
  o ∈ dropna to_datetime rs <->
  exists (i : nat) (r : order_row) (ts : Z),
    rs !! i = Some r /\
    to_datetime (order_purchase_timestamp <$> rs) !! i = Some (Some ts) /\
    o = (order_id r, ts).
Proof.
  unfold dropna, coerce_timestamps. rewrite list_elem_of_omap. split.
  - intros (x & Hx & Hk). apply list_elem_of_lookup in Hx as [i Hi].
    rewrite lookup_zip_with in Hi.
    destruct (rs !! i) as [r|] eqn:Hr; [|discriminate].
    destruct (to_datetime (order_purchase_timestamp <$> rs) !! i) as [p|] eqn:Hp;
      [|discriminate].
    cbn in Hi. injection Hi as <-. unfold keep_row in Hk. cbn in Hk.
    destruct p as [ts|]; [|discriminate]. cbn in Hk. injection Hk as <-.
    exists i, r, ts. auto.
  - intros (i & r & ts & Hr & Hp & ->). exists (order_id r, Some ts).
    split; [|reflexivity]. apply list_elem_of_lookup. exists i.
    rewrite lookup_zip_with, Hr, Hp. reflexivity.
Qed.

(** C7, as the code has it. On a table with both columns in which at least
    one timestamp parses, the run succeeds however many rows come out NaT
    from the parse of the column. The rows kept for the aggregation are
    exactly those whose parsed timestamp is not NaT; [min_date] and
    [max_date] are the least and the greatest day among them; and the two
    tables are built from daily totals that count, for each day of the
    range, the distinct ids of the kept rows of that day. A row that does
    not parse enters none of these. *)
Theorem C7_unparseable_rows_dropped to_datetime (fs : filesystem) g f :
  let rs := rows (read_csv f) in
  let parsed := to_datetime (order_purchase_timestamp <$> rs) in
  let valid (i : nat) (r : order_row) (ts : Z) : Prop :=
    rs !! i = Some r /\ parsed !! i = Some (Some ts) in
  fs !! ORDERS_FILE = Some f ->
  "order_purchase_timestamp"%string ∈ columns (read_csv f) ->
  "order_id"%string ∈ columns (read_csv f) ->
  (exists i r ts, valid i r ts) ->
  exists (s : summary) (total : Z -> Z),
    (main to_datetime fs g).1.1 = Ok s /\
    (forall o, o ∈ dropna to_datetime rs <->
               exists i r ts, valid i r ts /\ o = (order_id r, ts)) /\
    (exists i r ts, valid i r ts /\ day_of ts = min_date s) /\
    (exists i r ts, valid i r ts /\ day_of ts = max_date s) /\
    (forall i r ts, valid i r ts -> min_date s <= day_of ts <= max_date s) /\
    (let purchases_daily :=
       (fun d => (d, total d)) <$> date_range (min_date s) (max_date s) in
     (main to_datetime fs g).1.2 !! OUT_FUNNEL
       = Some (FunnelCsv (synthesize purchases_daily g).1.1) /\
     (main to_datetime fs g).1.2 !! OUT_SPEND
       = Some (SpendCsv (synthesize purchases_daily g).1.2)) /\
    (forall d, exists ids : list string,
       NoDup ids /\ total d = Z.of_nat (length ids) /\
       forall id, id ∈ ids <->
         exists i r ts, valid i r ts /\ day_of ts = d /\ order_id r = Some id).
Proof.
  intros rs parsed valid Hf Hts Hid (i0 & r0 & ts0 & Hv0).
  assert (Hel : forall o, o ∈ dropna to_datetime rs <->
            exists i r ts, valid i r ts /\ o = (order_id r, ts)).
  { intros o. rewrite elem_of_dropna. subst valid. cbv beta.
    split; intros (i & r & ts & H); exists i, r, ts; tauto. }
  assert (Hne : dropna to_datetime rs ≠ []).
  { intros E. assert (Hin : (order_id r0, ts0) ∈ dropna to_datetime rs)
      by (apply Hel; eauto).
    rewrite E in Hin. apply elem_of_nil in Hin. exact Hin. }
  destruct (main_success to_datetime fs g f Hf Hts Hid Hne)
    as (a & b & Ha & Hb & _ & Hmain). cbv zeta in Hmain. fold rs in Ha, Hb, Hmain.
  apply series_min_spec in Ha as [Hain Halb].
  apply series_max_spec in Hb as [Hbin Hbub].
  assert (Hday : forall d,
            d ∈ (fun o : option string * Z => day_of o.2) <$> dropna to_datetime rs
            <-> exists i r ts, valid i r ts /\ day_of ts = d).
  { intros d. rewrite list_elem_of_fmap. split.
    - intros (o & -> & Ho). apply Hel in Ho as (i & r & ts & Hv & ->).
      exists i, r, ts. auto.
    - intros (i & r & ts & Hv & <-). exists (order_id r, ts).
      split; [reflexivity|]. apply Hel. eauto. }
  exists {| funnel_len := length (synthesize (purchases_daily_of
                                     (dropna to_datetime rs) (date_range a b)) g).1.1;
            spend_len := length (synthesize (purchases_daily_of
                                     (dropna to_datetime rs) (date_range a b)) g).1.2;
            min_date := a; max_date := b |},
         (nunique_on (dropna to_datetime rs)).
  rewrite Hmain. cbn [fst snd min_date max_date]. unfold filesystem in *.
  split; [reflexivity|]. split; [exact Hel|].
  split; [apply Hday, Hain|]. split; [apply Hday, Hbin|].
  split.
  { intros i r ts Hv.
    assert (Hd : day_of ts ∈ (fun o : option string * Z => day_of o.2)
                              <$> dropna to_datetime rs)
      by (apply Hday; eauto).
    split; [apply Halb, Hd|apply Hbub, Hd]. }
  split.
  { split; [rewrite lookup_insert_ne by (vm_compute; discriminate)|];
      apply lookup_insert_eq. }
  intros d.
  exists (remove_dups (omap fst (filter (fun o : option string * Z => day_of o.2 = d)
                                        (dropna to_datetime rs)))).
  split; [apply NoDup_remove_dups|]. split; [reflexivity|].
  intros id. rewrite elem_of_remove_dups, list_elem_of_omap. split.
  - intros (o & Ho & Hid'). apply list_elem_of_filter in Ho as [Hd Ho].
    apply Hel in Ho as (i & r & ts & Hv & ->). cbn [fst snd] in *.
    exists i, r, ts. auto.
  - intros (i & r & ts & Hv & Hd & Hid'). exists (order_id r, ts).
    split; [|exact Hid']. apply list_elem_of_filter. split; [exact Hd|].
    apply Hel. eauto.
Qed.

Lemma C7_unparseable_rows_dropped_witness :
  let rs := rows Example.orders in
  Example.to_datetime (order_purchase_timestamp <$> rs) !! 1%nat = Some None /\
  Example.to_datetime (order_purchase_timestamp <$> rs) !! 2%nat
    = Some (Some (4 * ns_per_day)) /\
  exists s,
    (main Example.to_datetime Example.fs Example.halves).1.1 = Ok s /\
    (forall i r ts,
       rs !! i = Some r ->
       Example.to_datetime (order_purchase_timestamp <$> rs) !! i = Some (Some ts) ->
       min_date s <= day_of ts <= max_date s).
Proof.
  intros rs. split; [reflexivity|]. split; [reflexivity|].
  destruct (C7_unparseable_rows_dropped Example.to_datetime Example.fs
              Example.halves (OrdersCsv Example.orders))
    as (s & total & Hs & _ & _ & _ & Hrange & _).
  - reflexivity.
  - cbn. set_solver.
  - cbn. set_solver.
  - exists 2%nat, (OrderRow (Some "c"%string) (Some "4"%string)), (4 * ns_per_day).
    split; reflexivity.
  - exists s. split; [exact Hs|]. intros i r ts Hr Hp. apply (Hrange i r ts).
    split; assumption.
Defined.

(** The parse is of the column as a whole, so taking a row that does not
    parse out of the file can change how the others parse. With
    [Example.pandas_like], the cells 20170101, garbage, 20170105 are text
    and the two dates are read as 2017-01-01 and 2017-01-05 (days 17167 and
    17171); without the middle row the column is all digits, the cells are
    integers and both are instants of 1970-01-01 (day 0). The row that does
    not parse shifts the date range. *)
Lemma C7_counterexample :
  let cols := ["order_id"; "order_purchase_timestamp"]%string in
  let first := OrderRow (Some "a"%string) (Some "20170101"%string) in
  let bad := OrderRow (Some "b"%string) (Some "garbage"%string) in
  let last := OrderRow (Some "c"%string) (Some "20170105"%string) in
  let run rows := main Example.pandas_like
                    {[ ORDERS_FILE := OrdersCsv (Table cols rows) ]}
                    Example.halves in
  Example.pandas_like
    (order_purchase_timestamp <$> [first; bad; last]) !! 1%nat = Some None /\
  (run [first; bad; last]).1.1 = Ok (Summary 25 25 17167 17171) /\
  (run [first; last]).1.1 = Ok (Summary 5 5 0 0) /\
  (run [first; bad; last]).1.1 ≠ (run [first; last]).1.1.
Proof.
  vm_compute. repeat split; discriminate.
Qed.

(** ** The kept orders as a set *)

(** X14. A run depends on the orders that survive [dropna] only through
    the set of their (order_id, day) keys: two tables with the same columns
    whose kept orders have the same set of keys, in whatever order and
    however often repeated, give the same result, the same two output
    tables and leave the generator in the same state. *)
Theorem X14_kept_orders_as_a_set to_datetime (fs : filesystem) g cols
    (rs rs' : list order_row) :
  (forall k, k ∈ order_key <$> dropna to_datetime rs
             <-> k ∈ order_key <$> dropna to_datetime rs') ->
  let run rows := main to_datetime
                    (<[ORDERS_FILE := OrdersCsv (Table cols rows)]> fs) g in
  (run rs).1.1 = (run rs').1.1 /\
  (run rs).1.2 !! OUT_FUNNEL = (run rs').1.2 !! OUT_FUNNEL /\
  (run rs).1.2 !! OUT_SPEND = (run rs').1.2 !! OUT_SPEND /\
  (run rs).2 = (run rs').2.
Proof.
  intros Hs.
  assert (Hd : forall l : list (option string * Z),
            (fun o : option string * Z => day_of o.2) <$> l
            = snd <$> (order_key <$> l)).
  { intros l. rewrite <- list_fmap_compose. reflexivity. }
  assert (Hdays : forall x,
            x ∈ snd <$> (order_key <$> dropna to_datetime rs) <->
            x ∈ snd <$> (order_key <$> dropna to_datetime rs')).
  { intros x. rewrite !(list_elem_of_fmap snd).
    split; intros (k & Hx & Hk); exists k; (split; [exact Hx|apply Hs, Hk]). }
  apply main_kept_ext.
  - rewrite !Hd. apply series_min_same_elements, Hdays.
  - rewrite !Hd. apply series_max_same_elements, Hdays.
  - intros d. rewrite !nunique_on_keys. f_equal.
    apply remove_dups_length_same_elements.
    intros id. rewrite !list_elem_of_omap.
    split; intros (k & Hk & Hid); exists k; (split; [|exact Hid]);
      apply list_elem_of_filter; apply list_elem_of_filter in Hk as [Hkd Hk];
      (split; [exact Hkd|apply Hs, Hk]).
Qed.

Lemma X14_kept_orders_as_a_set_witness :
  let run rows := main Example.to_datetime
                    (<[ORDERS_FILE := OrdersCsv (Table (columns Example.orders) rows)]> ∅)
                    Example.halves in
  let rs := rows Example.orders in
  (run rs).1.1 = (run (reverse rs ++ rs)).1.1.
Proof.
  intros run rs.
  refine (proj1 (X14_kept_orders_as_a_set Example.to_datetime ∅ Example.halves
                   (columns Example.orders) rs (reverse rs ++ rs) _)).
  intros k.
  set (l1 := order_key <$> dropna Example.to_datetime rs).
  set (l2 := order_key <$> dropna Example.to_datetime (reverse rs ++ rs)).
  vm_compute in l1, l2. subst l1 l2.
  rewrite !elem_of_cons. pose proof (elem_of_nil k). tauto.
Defined.
